(** * Azure Monitor metrics exporter

    A shallow embedding of
    [opencensus/ext/azure/metrics_exporter/__init__.py]
    (class [MetricsExporter] and its converter, batching loop and
    shutdown), together with the properties its specification states.

    Python objects are records, [None]-able attributes are [option]s,
    dictionaries with string keys are [gmap string _], list indexing is
    a partial lookup that raises [IndexError], and exceptions are the
    [Err] branch of a [result].  Calls on collaborators that do I/O
    (transport, storage, the exporter thread) are state transformers on
    an abstract world, and every such call is recorded in a trace of
    events so that "is called" and "is called in this order" can be
    stated. *)

From Stdlib Require Import ZArith Lia.
From stdpp Require Import base option list gmap strings.

Set Default Proof Using "Type".

Open Scope string_scope.
Open Scope list_scope.

(** ** Exceptions *)

Inductive PyError : Type :=
| ValueError (msg : string)
| IndexError
| AttributeError.

Inductive result (A : Type) : Type :=
| Ok (a : A)
| Err (e : PyError).
Arguments Ok {A} a.
Arguments Err {A} e.

Definition rbind {A B : Type} (m : result A) (k : A -> result B) : result B :=
  match m with
  | Ok a => k a
  | Err e => Err e
  end.

Notation "'let?' x ':=' m 'in' k" := (rbind m (fun x => k))
  (at level 10, x pattern, m at level 100, k at level 200).

Definition is_ok {A : Type} (m : result A) : Prop := exists a, m = Ok a.

(** [l[i]] for a non-negative index. *)
Definition index {A : Type} (l : list A) (i : nat) : result A :=
  match l !! i with
  | Some x => Ok x
  | None => Err IndexError
  end.

(** [for x in xs: s = body x s], stopping at the first exception. *)
Fixpoint for_each {A S : Type} (xs : list A) (body : A -> S -> result S) (s : S)
  : result S :=
  match xs with
  | [] => Ok s
  | x :: rest => let? s' := body x s in for_each rest body s'
  end.

(** ** Batching *)

(** Modelled from the spec: [common_utils.window] (module
    [opencensus.common.utils]) is not part of the sources at hand.  The
    spec's Batcher takes an ordered sequence and a maximum batch size
    [M >= 1] and produces batches of size [M] except possibly the last,
    in input order.  [chunks] cuts [n] items off the front until the
    input is used up; its fuel is the length of the input, which is
    enough for [n >= 1].  Outside the contract ([M <= 0]) the model
    refuses with a configuration error, so that a caller relying on
    [M >= 1] has to establish it. *)
Fixpoint chunks {A : Type} (fuel n : nat) (l : list A) : list (list A) :=
  match fuel with
  | O => []
  | S fuel' =>
      match l with
      | [] => []
      | _ :: _ => take n l :: chunks fuel' n (drop n l)
      end
  end.

Definition window {A : Type} (ible : list A) (size : Z) : result (list (list A)) :=
  if (size <=? 0)%Z
  then Err (ValueError "window: length must be positive")
  else Ok (chunks (length ible) (Z.to_nat size) ible).


(** ** Transport status codes *)

(** Modelled from the spec: the declaration of [TransportStatusCode]
    (module [opencensus.ext.azure.common.transport]) is not part of the
    sources at hand; the source names [RETRY] and [STATSBEAT_SHUTDOWN],
    the other outcomes are the spec's [Success], [NonRetryable] and
    [Redirect(newEndpoint)]. *)
Inductive TransportStatusCode : Type :=
| SUCCESS
| RETRY
| NON_RETRYABLE
| REDIRECT (new_endpoint : string)
| STATSBEAT_SHUTDOWN.

Definition is_RETRY (r : TransportStatusCode) : bool :=
  match r with RETRY => true | _ => false end.

Definition is_STATSBEAT_SHUTDOWN (r : TransportStatusCode) : bool :=
  match r with STATSBEAT_SHUTDOWN => true | _ => false end.

Section Exporter.

(** Numbers carried by points ([int] or [float]) and time stamps
    ([datetime]) are opaque to the exporter: it copies the former and
    calls [isoformat] on the latter. *)
Context {number : Type}.
Context {datetime : Type}.
Variable isoformat : datetime -> string.

(** The integer code of [MetricDescriptorType.CUMULATIVE_DISTRIBUTION]
    and the constant [utils.azure_monitor_context]; both are declared
    outside this module. *)
Variable CUMULATIVE_DISTRIBUTION : Z.
Variable azure_monitor_context : gmap string string.

(** ** The metric model read by the converter *)

Record LabelKey : Type := { key : string }.

Record LabelValue : Type := { lv_value : option string }.

(** The value object of a point.  The value classes belong to the
    metrics library, outside this module; the exporter reads their
    [value] attribute, which the long and double values have and a
    distribution value has not. *)
Inductive Value : Type :=
| HasValue (v_value : number)
| NoValue.

(** [v.value], which raises [AttributeError] on an object without the
    attribute. *)
Definition value_of (v : Value) : result number :=
  match v with
  | HasValue x => Ok x
  | NoValue => Err AttributeError
  end.

Record Point : Type := { p_value : Value; timestamp : datetime }.

Record TimeSeries : Type := {
  label_values : list LabelValue;
  points : list Point
}.

Record MetricDescriptor : Type := {
  md_name : string;
  md_type : Z;
  label_keys : list LabelKey
}.

Record Metric : Type := {
  descriptor : MetricDescriptor;
  time_series : list TimeSeries
}.

(** ** The wire model written by the converter *)

Record DataPoint : Type := {
  dp_ns : string;
  dp_name : string;
  dp_value : number
}.

Record MetricData : Type := {
  metrics : list DataPoint;
  properties : gmap string string
}.

Record Data : Type := {
  baseData : MetricData;
  baseType : string
}.

Record Envelope : Type := {
  iKey : option string;
  tags : gmap string string;
  time : string;
  env_name : string;
  data : Data
}.

(** ** Options and the exporter object *)

Record Options : Type := {
  instrumentation_key : option string;
  max_batch_size : Z;
  opt_export_interval : number;
  enable_local_storage : bool;
  storage_path : string;
  storage_max_size : Z;
  storage_maintenance_period : Z;
  storage_retention_period : Z;
  minimum_retry_interval : Z;
  enable_standard_metrics : bool
}.

Record LocalFileStorage : Type := {
  path : string;
  max_size : Z;
  maintenance_period : Z;
  retention_period : Z;
  source : string
}.

Context {Processor : Type}.
Context {ExporterThread : Type}.

Record MetricsExporter : Type := {
  options : Options;
  _is_stats : bool;
  export_interval : number;
  self_max_batch_size : Z;
  _telemetry_processors : list Processor;
  storage : option LocalFileStorage;
  exporter_thread : option ExporterThread;
  _consecutive_redirects : Z
}.

(** ** Converter *)

Definition _create_data_points (time_series : TimeSeries)
    (metric_descriptor : MetricDescriptor) : result (list DataPoint) :=
  for_each (points time_series)
    (fun point data_points =>
       let? v := value_of (p_value point) in
       Ok (data_points ++ [ {| dp_ns := md_name metric_descriptor;
                               dp_name := md_name metric_descriptor;
                               dp_value := v |} ]))
    [].

Definition _create_properties (time_series : TimeSeries)
    (metric_descriptor : MetricDescriptor) : result (gmap string string) :=
  for_each (seq 0 (length (label_keys metric_descriptor)))
    (fun i (properties : gmap string string) =>
       let? lv := index (label_values time_series) i in
       let value := match lv_value lv with
                    | None => "null"
                    | Some v => v
                    end in
       let? lk := index (label_keys metric_descriptor) i in
       Ok (<[key lk := value]> properties))
    ∅.

Definition _create_envelope (self : MetricsExporter) (data_point : DataPoint)
    (timestamp : datetime) (properties : gmap string string) : Envelope :=
  {| iKey := instrumentation_key (options self);
     tags := azure_monitor_context;
     time := isoformat timestamp;
     env_name := if _is_stats self
                 then "Statsbeat"
                 else "Microsoft.ApplicationInsights.Metric";
     data := {| baseData := {| metrics := [data_point];
                               properties := properties |};
                baseType := "MetricData" |} |}.

Definition metric_to_envelopes (self : MetricsExporter) (metric : Metric)
  : result (list Envelope) :=
  if negb (md_type (descriptor metric) =? CUMULATIVE_DISTRIBUTION)%Z then
    let md := descriptor metric in
    for_each (time_series metric)
      (fun time_series envelopes =>
         let? data_points := _create_data_points time_series md in
         let? data_point := index data_points 0 in
         let? p0 := index (points time_series) 0 in
         let timestamp := timestamp p0 in
         let? properties := _create_properties time_series md in
         Ok (envelopes ++ [_create_envelope self data_point timestamp properties]))
      []
  else Ok [].

(** ** Collaborators

    The transport mixin, the processor mixin, the storage, the exporter
    thread and the statsbeat module live outside this module.  Each of
    their operations is an arbitrary transformer of the world [W]; the
    exporter object itself is only read by [export_metrics] and
    [shutdown]. *)

Context {W : Type}.
Variable apply_telemetry_processors :
  MetricsExporter -> list Envelope -> W -> list Envelope * W.
Variable _transmit :
  MetricsExporter -> list Envelope -> W -> TransportStatusCode * W.
Variable _is_stats_exporter : MetricsExporter -> bool.
Variable _transmit_from_storage : MetricsExporter -> W -> W.
Variable shutdown_statsbeat_metrics : W -> W.
Variable storage_put : LocalFileStorage -> list Envelope -> Z -> W -> W.
Variable storage_close : LocalFileStorage -> W -> W.
Variable thread_close : ExporterThread -> W -> W.
Variable thread_cancel : ExporterThread -> W -> W.

(** Modelled from the spec: [utils.validate_instrumentation_key] is not
    part of the sources at hand.  The spec has the key "required,
    validated non-empty/well-formed" and an empty or invalid key fail
    construction with a configuration error; what counts as well-formed
    is left to [well_formed_key]. *)
Variable well_formed_key : string -> bool.

Definition validate_instrumentation_key (instrumentation_key : option string)
  : result unit :=
  match instrumentation_key with
  | None => Err (ValueError "Instrumentation key cannot be none or empty.")
  | Some k =>
      if String.eqb k ""
      then Err (ValueError "Instrumentation key cannot be none or empty.")
      else if well_formed_key k
           then Ok tt
           else Err (ValueError "Invalid instrumentation key.")
  end.

(** One call on a collaborator, as the trace records it. *)
Inductive Event : Type :=
| EvProcess (batch : list Envelope)
| EvTransmit (batch : list Envelope) (result : TransportStatusCode)
| EvShutdownStatsbeat
| EvStoragePut (st : LocalFileStorage) (batch : list Envelope) (lease_period : Z)
| EvTransmitFromStorage
| EvThreadClose (t : ExporterThread)
| EvThreadCancel (t : ExporterThread)
| EvStorageClose (st : LocalFileStorage).

(** Effectful code: a transformer of the world that also yields the
    events of the calls it made, in order. *)
Definition Eff (A : Type) : Type := W -> A * W * list Event.

Definition ret {A : Type} (a : A) : Eff A := fun w => (a, w, []).

Definition bind {A B : Type} (m : Eff A) (k : A -> Eff B) : Eff B :=
  fun w =>
    let '(a, w1, t1) := m w in
    let '(b, w2, t2) := k a w1 in
    (b, w2, t1 ++ t2).

Notation "'do' x '<-' m ';' k" := (bind m (fun x => k))
  (at level 10, x pattern, m at level 100, k at level 200).

Definition events {A : Type} (r : A * W * list Event) : list Event := r.2.
Definition world {A : Type} (r : A * W * list Event) : W := r.1.2.
Definition value {A : Type} (r : A * W * list Event) : A := r.1.1.

Definition call_apply_telemetry_processors (self : MetricsExporter)
    (batch : list Envelope) : Eff (list Envelope) :=
  fun w => let '(batch', w') := apply_telemetry_processors self batch w in
           (batch', w', [EvProcess batch]).

Definition call_transmit (self : MetricsExporter) (batch : list Envelope)
  : Eff TransportStatusCode :=
  fun w => let '(result, w') := _transmit self batch w in
           (result, w', [EvTransmit batch result]).

Definition call_shutdown_statsbeat_metrics : Eff unit :=
  fun w => (tt, shutdown_statsbeat_metrics w, [EvShutdownStatsbeat]).

Definition call_storage_put (st : LocalFileStorage) (batch : list Envelope)
    (lease_period : Z) : Eff unit :=
  fun w => (tt, storage_put st batch lease_period w,
            [EvStoragePut st batch lease_period]).

Definition call_transmit_from_storage (self : MetricsExporter) : Eff unit :=
  fun w => (tt, _transmit_from_storage self w, [EvTransmitFromStorage]).

Definition call_thread_close (t : ExporterThread) : Eff unit :=
  fun w => (tt, thread_close t w, [EvThreadClose t]).

Definition call_thread_cancel (t : ExporterThread) : Eff unit :=
  fun w => (tt, thread_cancel t w, [EvThreadCancel t]).

Definition call_storage_close (st : LocalFileStorage) : Eff unit :=
  fun w => (tt, storage_close st w, [EvStorageClose st]).

(** ** The exporter *)

(** [MetricsExporter.__init__], on the options already gathered in an
    [Options] object.  The registration of [shutdown] with [atexit] and
    the start of the storage worker are not events of the trace. *)
Definition __init__ (is_stats : bool) (opts : Options) : result MetricsExporter :=
  let? _ := validate_instrumentation_key (instrumentation_key opts) in
  if (max_batch_size opts <=? 0)%Z
  then Err (ValueError "Max batch size must be at least 1.")
  else
    Ok {| options := opts;
          _is_stats := is_stats;
          export_interval := opt_export_interval opts;
          self_max_batch_size := max_batch_size opts;
          _telemetry_processors := [];
          storage := if enable_local_storage opts
                     then Some {| path := storage_path opts;
                                  max_size := storage_max_size opts;
                                  maintenance_period := storage_maintenance_period opts;
                                  retention_period := storage_retention_period opts;
                                  source := "MetricsExporter" |}
                     else None;
          exporter_thread := None;
          _consecutive_redirects := 0 |}.

(** How the body of the batch loop ends: it falls through to the next
    batch, or it executes [return]. *)
Inductive Flow : Type := Next | Return.

(** The body of [for batch in batched_envelopes]. *)
Definition send_batch (self : MetricsExporter) (batch : list Envelope) : Eff Flow :=
  do batch <- call_apply_telemetry_processors self batch;
  do result <- call_transmit self batch;
  if _is_stats_exporter self && is_STATSBEAT_SHUTDOWN result then
    do _ <- call_shutdown_statsbeat_metrics;
    ret Return
  else
    do _ <- match storage self with
            | Some st =>
                if is_RETRY result
                then call_storage_put st batch (minimum_retry_interval (options self))
                else ret tt
            | None => ret tt
            end;
    ret Next.

Fixpoint send_batches (self : MetricsExporter) (batched_envelopes : list (list Envelope))
  : Eff Flow :=
  match batched_envelopes with
  | [] => ret Next
  | batch :: rest =>
      do flow <- send_batch self batch;
      match flow with
      | Return => ret Return
      | Next => send_batches self rest
      end
  end.

(** [envelopes] as gathered by the first loop of [export_metrics]. *)
Definition gather_envelopes (self : MetricsExporter) (metrics : list Metric)
  : result (list Envelope) :=
  for_each metrics
    (fun metric envelopes =>
       let? es := metric_to_envelopes self metric in
       Ok (envelopes ++ es))
    [].

(** What follows the gathering: batch, dispatch, drain. *)
Definition dispatch (self : MetricsExporter) (envelopes : list Envelope)
    (batched_envelopes : list (list Envelope)) : Eff unit :=
  do flow <- send_batches self batched_envelopes;
  match flow with
  | Return => ret tt
  | Next =>
      if (Z.of_nat (length envelopes) <? max_batch_size (options self))%Z
      then call_transmit_from_storage self
      else ret tt
  end.

Definition export_metrics (self : MetricsExporter) (metrics : list Metric) (w : W)
  : result (unit * W * list Event) :=
  let? envelopes := gather_envelopes self metrics in
  let? batched_envelopes := window envelopes (self_max_batch_size self) in
  Ok (dispatch self envelopes batched_envelopes w).

Definition shutdown (self : MetricsExporter) : Eff unit :=
  do _ <- match exporter_thread self with
          | Some t =>
              if negb (_is_stats self)
              then call_thread_close t
              else call_thread_cancel t
          | None => ret tt
          end;
  match storage self with
  | Some st => call_storage_close st
  | None => ret tt
  end.

(** ** The factory *)

(** [new_metrics_exporter] starts the exporter thread over the metric
    producers and, unless the environment disables it, the collection
    of statsbeat metrics.  [stats_module.stats] and
    [standard_metrics.producer] are the two producers,
    [transport.get_exporter_thread] returns the started thread, and
    [statsbeat.collect_statsbeat_metrics] is a transformer of the world;
    all four live outside this module. *)
Context {Producer : Type}.
Variable stats_producer : Producer.
Variable standard_metrics_producer : Producer.
Variable get_exporter_thread :
  list Producer -> MetricsExporter -> number -> W -> ExporterThread * W.
Variable collect_statsbeat_metrics : Options -> W -> W.

(** The calls of the factory on its collaborators. *)
Inductive SetupEvent : Type :=
| EvGetExporterThread (producers : list Producer) (exporter : MetricsExporter)
    (interval : number)
| EvCollectStatsbeat (opts : Options).

(** The truth value of [os.environ.get(name)]: a variable that is not
    set, or set to the empty string, is false. *)
Definition env_truthy (environ : gmap string string) (name : string) : bool :=
  match environ !! name with
  | None => false
  | Some v => negb (String.eqb v "")
  end.

(** [new_metrics_exporter], called with keyword options.  [is_stats] is the keyword of
    that name among the options ([False] when it is not given), [opts]
    the other options as [__init__] takes them, and [environ] is
    [os.environ].  The exporter handed to [get_exporter_thread] is the
    one under construction, whose [exporter_thread] is still [None]; the
    exporter returned is that object with the thread attached. *)
Definition new_metrics_exporter (is_stats : bool) (opts : Options)
    (environ : gmap string string) (w : W)
  : result (MetricsExporter * W * list SetupEvent) :=
  let? exporter := __init__ is_stats opts in
  let producers := [stats_producer] in
  let producers :=
    if enable_standard_metrics (options exporter)
    then producers ++ [standard_metrics_producer]
    else producers in
  let '(thread, w1) :=
    get_exporter_thread producers exporter
      (opt_export_interval (options exporter)) w in
  let started := EvGetExporterThread producers exporter
                   (opt_export_interval (options exporter)) in
  let exporter' :=
    {| options := options exporter;
       _is_stats := _is_stats exporter;
       export_interval := export_interval exporter;
       self_max_batch_size := self_max_batch_size exporter;
       _telemetry_processors := _telemetry_processors exporter;
       storage := storage exporter;
       exporter_thread := Some thread;
       _consecutive_redirects := _consecutive_redirects exporter |} in
  if negb (env_truthy environ "APPLICATIONINSIGHTS_STATSBEAT_DISABLED_ALL")
  then Ok (exporter',
           collect_statsbeat_metrics (options exporter') w1,
           [started; EvCollectStatsbeat (options exporter')])
  else Ok (exporter', w1, [started]).

(** ** Reading a trace *)

(** The batches handed to the telemetry processors, in order. *)
Definition processed (tr : list Event) : list (list Envelope) :=
  omap (fun e => match e with EvProcess b => Some b | _ => None end) tr.

(** The batches handed to the transport, each with its outcome. *)
Definition transmitted (tr : list Event)
  : list (list Envelope * TransportStatusCode) :=
  omap (fun e => match e with EvTransmit b r => Some (b, r) | _ => None end) tr.

(** The batches written to the retry store, each with its lease. *)
Definition stored (tr : list Event) : list (list Envelope * Z) :=
  omap (fun e => match e with EvStoragePut _ b p => Some (b, p) | _ => None end) tr.

(** The number of drains of the retry store. *)
Definition drains (tr : list Event) : nat :=
  length (omap (fun e => match e with
                         | EvTransmitFromStorage => Some tt
                         | _ => None
                         end) tr).

(** ** Specification-side helpers *)

(** The text a label value is encoded as. *)
Definition label_text (lv : LabelValue) : string :=
  match lv_value lv with
  | None => "null"
  | Some v => v
  end.

(** [properties[k] = label_text v], the assignment of one loop round. *)
Definition assign (properties : gmap string string) (kv : LabelKey * LabelValue)
  : gmap string string :=
  <[key kv.1 := label_text kv.2]> properties.

(** What one time series is converted to. *)
Definition series_envelope (self : MetricsExporter) (md : MetricDescriptor)
    (ts : TimeSeries) : result Envelope :=
  let? data_points := _create_data_points ts md in
  let? data_point := index data_points 0 in
  let? p0 := index (points ts) 0 in
  let? properties := _create_properties ts md in
  Ok (_create_envelope self data_point (timestamp p0) properties).

(** A point whose value object has the [value] attribute. *)
Definition has_value (p : Point) : Prop := exists v, p_value p = HasValue v.

(** A time series cut down to its first point. *)
Definition first_point_only (ts : TimeSeries) : TimeSeries :=
  {| label_values := label_values ts; points := take 1 (points ts) |}.

Definition first_points_only (metric : Metric) : Metric :=
  {| descriptor := descriptor metric;
     time_series := first_point_only <$> time_series metric |}.

(** The events by which one round of the batch loop stores its batch. *)
Definition store_events (self : MetricsExporter) (batch : list Envelope)
    (result : TransportStatusCode) : list Event :=
  match storage self with
  | Some st =>
      if is_RETRY result
      then [EvStoragePut st batch (minimum_retry_interval (options self))]
      else []
  | None => []
  end.

(** The traces of the batch loop over a list of batches, with the way
    the loop ends: each round hands its batch to the processors and the
    result to the transport; the round of a shutdown signal on the
    statsbeat exporter ends the trace, any other round goes on with the
    rest of the batches. *)
Inductive loop_trace (self : MetricsExporter)
  : list (list Envelope) -> Flow -> list Event -> Prop :=
| loop_done :
    loop_trace self [] Next []
| loop_return batch rest batch' result :
    _is_stats_exporter self && is_STATSBEAT_SHUTDOWN result = true ->
    loop_trace self (batch :: rest) Return
      [EvProcess batch; EvTransmit batch' result; EvShutdownStatsbeat]
| loop_next batch rest batch' result flow tr :
    _is_stats_exporter self && is_STATSBEAT_SHUTDOWN result = false ->
    loop_trace self rest flow tr ->
    loop_trace self (batch :: rest) flow
      (EvProcess batch :: EvTransmit batch' result
         :: store_events self batch' result ++ tr).

(** The events of the drain that may follow the batch loop. *)
Definition drain_events (self : MetricsExporter) (envelopes : list Envelope)
    (flow : Flow) : list Event :=
  match flow with
  | Return => []
  | Next =>
      if (Z.of_nat (length envelopes) <? max_batch_size (options self))%Z
      then [EvTransmitFromStorage]
      else []
  end.

(** * Properties *)

(** ** Results and loops *)

Lemma rbind_ok {A B : Type} (m : result A) (k : A -> result B) (b : B) :
  rbind m k = Ok b <-> exists a, m = Ok a /\ k a = Ok b.
Proof.
  destruct m as [a|e]; simpl; split.
  - intros H; exists a; auto.
  - intros (a' & Ha & Hk); injection Ha as ->; exact Hk.
  - discriminate.
  - intros (a' & Ha & _); discriminate.
Qed.

Lemma index_ok {A : Type} (l : list A) (i : nat) (x : A) :
  index l i = Ok x <-> l !! i = Some x.
Proof.
  unfold index; destruct (l !! i); split; intros H; try discriminate; congruence.
Qed.

Lemma index_err {A : Type} (l : list A) (i : nat) (e : PyError) :
  index l i = Err e -> e = IndexError /\ length l <= i.
Proof.
  unfold index; destruct (l !! i) eqn:E; [discriminate|].
  intros [= <-]; split; [reflexivity|]. by apply lookup_ge_None.
Qed.

(** A loop whose body appends one converted item per round. *)
Lemma for_each_collect {A B : Type} (f : A -> result B) (xs : list A) :
  forall acc out,
    for_each xs (fun x acc => let? y := f x in Ok (acc ++ [y])) acc = Ok out <->
    exists ys, out = acc ++ ys /\ Forall2 (fun x y => f x = Ok y) xs ys.
Proof.
  induction xs as [|x xs IH]; intros acc out; simpl.
  - split.
    + intros [= <-]. exists []. rewrite app_nil_r. auto.
    + intros (ys & -> & HF). inversion HF. by rewrite app_nil_r.
  - rewrite rbind_ok. split.
    + intros (acc' & Hb & Hrest). apply rbind_ok in Hb as (y & Hy & [= <-]).
      apply IH in Hrest as (ys & -> & HF).
      exists (y :: ys). rewrite <- app_assoc. auto.
    + intros (ys & -> & HF). inversion HF as [|? y ? ys' Hy HF']; subst.
      exists (acc ++ [y]). split.
      * by rewrite Hy.
      * apply IH. exists ys'. by rewrite <- app_assoc.
Qed.

(** Loops with pointwise equal bodies. *)
Lemma for_each_ext {A S : Type} (body body' : A -> S -> result S) (xs : list A) :
  (forall x s, body x s = body' x s) ->
  forall acc, for_each xs body acc = for_each xs body' acc.
Proof.
  intros Hb. induction xs as [|x xs IH]; intros acc; simpl; [reflexivity|].
  rewrite Hb. destruct (body' x acc); simpl; [apply IH|reflexivity].
Qed.

(** Looping over the images of a list. *)
Lemma for_each_fmap {A A' S : Type} (g : A -> A') (body : A -> S -> result S)
    (body' : A' -> S -> result S) (xs : list A) :
  (forall x s, body' (g x) s = body x s) ->
  forall acc, for_each (g <$> xs) body' acc = for_each xs body acc.
Proof.
  intros Hb. induction xs as [|x xs IH]; intros acc; simpl; [reflexivity|].
  rewrite Hb. destruct (body x acc); simpl; [apply IH|reflexivity].
Qed.

(** A loop fails only with the failure of one of its rounds. *)
Lemma for_each_err {A S : Type} (body : A -> S -> result S) (xs : list A) :
  forall acc e,
    for_each xs body acc = Err e ->
    exists x s, x ∈ xs /\ body x s = Err e.
Proof.
  induction xs as [|x xs IH]; intros acc e; simpl; [discriminate|].
  destruct (body x acc) as [s|e'] eqn:Hb; simpl.
  - intros H. apply IH in H as (x' & s' & Hin & Hx').
    exists x', s'. split; [by right|done].
  - intros [= ->]. exists x, acc. split; [by left|done].
Qed.

(** Such a loop fails exactly with the failure of its first failing round. *)
Lemma for_each_collect_err {A B : Type} (f : A -> result B) (xs : list A) :
  forall acc e,
    for_each xs (fun x acc => let? y := f x in Ok (acc ++ [y])) acc = Err e ->
    exists x, x ∈ xs /\ f x = Err e.
Proof.
  induction xs as [|x xs IH]; intros acc e; simpl; [discriminate|].
  destruct (f x) as [y|e'] eqn:Hf; simpl.
  - intros H. apply IH in H as (x' & Hin & Hx'). exists x'. split; [by right|done].
  - intros [= ->]. exists x. split; [by left|done].
Qed.

(** ** The properties mapping *)

(** The rounds [start, start + n) of the loop of [_create_properties]. *)
Lemma create_properties_rounds (ts : TimeSeries) (md : MetricDescriptor) :
  forall n start (acc : gmap string string),
    start + n <= length (label_keys md) ->
    start + n <= length (label_values ts) ->
    for_each (seq start n)
      (fun i (properties : gmap string string) =>
         let? lv := index (label_values ts) i in
         let value := match lv_value lv with
                      | None => "null"
                      | Some v => v
                      end in
         let? lk := index (label_keys md) i in
         Ok (<[key lk := value]> properties))
      acc
    = Ok (foldl assign acc (zip (take n (drop start (label_keys md)))
                                (take n (drop start (label_values ts))))).
Proof.
  induction n as [|n IH]; intros start acc HK HV; simpl; [reflexivity|].
  destruct (lookup_lt_is_Some_2 (label_values ts) start) as [v Hv]; [lia|].
  destruct (lookup_lt_is_Some_2 (label_keys md) start) as [k Hk]; [lia|].
  unfold index at 1 2. rewrite Hv, Hk. simpl.
  rewrite IH by lia.
  rewrite (drop_S _ _ _ Hk), (drop_S _ _ _ Hv). reflexivity.
Qed.

Lemma create_properties_ok (ts : TimeSeries) (md : MetricDescriptor) :
  length (label_keys md) <= length (label_values ts) ->
  _create_properties ts md
  = Ok (foldl assign ∅ (zip (label_keys md) (label_values ts))).
Proof.
  intros H. unfold _create_properties.
  rewrite create_properties_rounds by lia.
  rewrite !drop_0, firstn_all. by rewrite zip_with_take_r.
Qed.

(** A label-value list shorter than the label keys stops the loop with
    an out-of-range index. *)
Lemma create_properties_short_values (ts : TimeSeries) (md : MetricDescriptor) :
  length (label_values ts) < length (label_keys md) ->
  _create_properties ts md = Err IndexError.
Proof.
  intros H. unfold _create_properties.
  replace (length (label_keys md))
    with (length (label_values ts)
          + S (length (label_keys md) - S (length (label_values ts)))) by lia.
  rewrite seq_app. simpl.
  generalize (seq (S (length (label_values ts)))
                (length (label_keys md) - S (length (label_values ts)))).
  intros tl.
  assert (Hpre : forall xs acc,
    for_each (xs ++ length (label_values ts) :: tl)
      (fun i (properties : gmap string string) =>
         let? lv := index (label_values ts) i in
         let value := match lv_value lv with
                      | None => "null"
                      | Some v => v
                      end in
         let? lk := index (label_keys md) i in
         Ok (<[key lk := value]> properties)) acc = Err IndexError
    \/ exists i, i ∈ xs /\ length (label_values ts) <= i).
  { induction xs as [|x xs IHxs]; intros acc; simpl.
    - left. unfold index at 1. by rewrite (lookup_ge_None_2 _ _ (le_n _)).
    - destruct (index (label_values ts) x) as [lv|e] eqn:Ev; simpl.
      + destruct (index (label_keys md) x) as [lk|e] eqn:Ek; simpl.
        * destruct (IHxs (<[key lk := match lv_value lv with
                                       | None => "null"
                                       | Some v => v
                                       end]> acc)) as [Herr|(i & Hi & Hle)].
          -- by left.
          -- right. exists i. split; [by right|done].
        * apply index_err in Ek as [-> _]. by left.
      + apply index_err in Ev as [-> _]. by left. }
  destruct (Hpre (seq 0 (length (label_values ts))) ∅) as [Herr|(i & Hi & Hle)].
  - exact Herr.
  - apply elem_of_seq in Hi. lia.
Qed.

(** The only failure of [_create_properties] is an out-of-range index. *)
Lemma create_properties_only_index_error (ts : TimeSeries) (md : MetricDescriptor)
    (e : PyError) :
  _create_properties ts md = Err e -> e = IndexError.
Proof.
  destruct (decide (length (label_keys md) <= length (label_values ts))) as [H|H].
  - rewrite create_properties_ok by done. discriminate.
  - rewrite create_properties_short_values by lia. by intros [= <-].
Qed.

Lemma foldl_assign_lookup_ne (l : list (LabelKey * LabelValue))
    (acc : gmap string string) (x : string) :
  Forall (fun kv => key kv.1 <> x) l ->
  foldl assign acc l !! x = acc !! x.
Proof.
  revert acc. induction l as [|kv l IH]; intros acc HF; simpl; [reflexivity|].
  inversion HF as [|? ? Hkv HF']; subst.
  rewrite IH by done. unfold assign. by rewrite lookup_insert_ne.
Qed.

Lemma foldl_assign_dom (l : list (LabelKey * LabelValue)) (acc : gmap string string) :
  dom (foldl assign acc l) = dom acc ∪ list_to_set ((fun kv => key kv.1) <$> l).
Proof.
  revert acc. induction l as [|kv l IH]; intros acc; simpl.
  - by rewrite union_empty_r_L.
  - rewrite IH. unfold assign. rewrite dom_insert_L.
    rewrite (union_comm_L {[key kv.1]} (dom acc)).
    by rewrite union_assoc_L.
Qed.

(** C7, as the code has it: when a time series carries at least as
    many label values as the descriptor has label keys, [_create_properties] returns the
    mapping built by assigning, for each index [i] in order, the text of
    the label value at [i] to the key at [i]; no length check is made
    (extra label values are accepted and ignored).  Every label key is a
    key of the mapping, the key at index [i] maps to the label value at
    index [i] (when the same key does not occur again at a later index,
    whose assignment would overwrite it), and a missing ([None]) label
    value is stored as the string "null" instead of leaving the key out. *)
Theorem create_properties_pairs_by_index (ts : TimeSeries) (md : MetricDescriptor) :
  length (label_keys md) <= length (label_values ts) ->
  exists props : gmap string string,
    _create_properties ts md = Ok props /\
    props = foldl assign ∅ (zip (label_keys md) (label_values ts)) /\
    dom props = list_to_set (key <$> label_keys md) /\
    (forall i k v,
        label_keys md !! i = Some k ->
        label_values ts !! i = Some v ->
        (forall j k', i < j -> label_keys md !! j = Some k' -> key k' <> key k) ->
        props !! key k = Some (match lv_value v with
                               | None => "null"
                               | Some s => s
                               end)).
Proof.
  intros Hlen. eexists. split; [by apply create_properties_ok|].
  split; [reflexivity|]. split.
  - rewrite foldl_assign_dom, dom_empty_L, union_empty_l_L.
    rewrite <- (fst_zip (label_keys md) (label_values ts)) at 2 by done.
    by rewrite <- list_fmap_compose.
  - intros i k v Hk Hv Hlater.
    assert (Hz : zip (label_keys md) (label_values ts) !! i = Some (k, v)).
    { apply lookup_zip_with_Some. eauto. }
    rewrite <- (take_drop_middle _ _ _ Hz), foldl_app. simpl.
    rewrite foldl_assign_lookup_ne.
    + unfold assign. simpl. by rewrite lookup_insert_eq.
    + apply Forall_lookup. intros j [k' v'] Hj. simpl.
      rewrite lookup_drop in Hj.
      apply lookup_zip_with_Some in Hj as (? & ? & [= <- <-] & Hk' & _).
      apply (Hlater (S i + j)); [lia|done].
Qed.

(** ** The converter *)

(** The body of the loop of [metric_to_envelopes] converts one series. *)
Lemma metric_to_envelopes_unfold (self : MetricsExporter) (metric : Metric) :
  metric_to_envelopes self metric
  = if negb (md_type (descriptor metric) =? CUMULATIVE_DISTRIBUTION)%Z
    then for_each (time_series metric)
           (fun ts acc =>
              let? e := series_envelope self (descriptor metric) ts in
              Ok (acc ++ [e])) []
    else Ok [].
Proof.
  unfold metric_to_envelopes. destruct (negb _); [|reflexivity].
  apply for_each_ext. intros ts acc. unfold series_envelope.
  destruct (_create_data_points ts (descriptor metric)) as [dps|]; simpl; [|done].
  destruct (index dps 0); simpl; [|done].
  destruct (index (points ts) 0); simpl; [|done].
  by destruct (_create_properties ts (descriptor metric)).
Qed.

(** What [_create_data_points] returns, when it returns: one data point
    for each point, all of which have a value. *)
Lemma create_data_points_ok (ts : TimeSeries) (md : MetricDescriptor)
    (dps : list DataPoint) :
  _create_data_points ts md = Ok dps <->
  Forall2 (fun p dp => exists v, p_value p = HasValue v /\
                                 dp = {| dp_ns := md_name md;
                                         dp_name := md_name md;
                                         dp_value := v |})
          (points ts) dps.
Proof.
  unfold _create_data_points.
  rewrite (for_each_ext _
             (fun p acc =>
                let? dp := (let? v := value_of (p_value p) in
                            Ok {| dp_ns := md_name md;
                                  dp_name := md_name md;
                                  dp_value := v |}) in
                Ok (acc ++ [dp]))).
  - rewrite for_each_collect. simpl. split.
    + intros (ys & -> & HF). eapply Forall2_impl; [exact HF|].
      intros p dp. simpl. destruct (p_value p) as [v|]; simpl; [|discriminate].
      intros [= <-]. by exists v.
    + intros HF. exists dps. split; [done|].
      eapply Forall2_impl; [exact HF|].
      intros p dp (v & -> & ->). reflexivity.
  - intros p acc. by destruct (p_value p).
Qed.

(** [_create_data_points] fails only on a point without a value. *)
Lemma create_data_points_err (ts : TimeSeries) (md : MetricDescriptor)
    (err : PyError) :
  _create_data_points ts md = Err err ->
  err = AttributeError /\ exists p, p ∈ points ts /\ p_value p = NoValue.
Proof.
  unfold _create_data_points. intros H.
  apply for_each_err in H as (p & acc & Hin & H).
  destruct (p_value p) as [v|] eqn:Hv; simpl in H; [discriminate|].
  injection H as <-. split; [done|]. by exists p.
Qed.

Lemma create_data_points_total (ts : TimeSeries) (md : MetricDescriptor) :
  (forall p, p ∈ points ts -> has_value p) ->
  is_ok (_create_data_points ts md).
Proof.
  intros Hall.
  destruct (_create_data_points ts md) as [dps|err] eqn:H; [by eexists|].
  apply create_data_points_err in H as (_ & p & Hin & Hnone).
  destruct (Hall p Hin) as [v Hv]. congruence.
Qed.

(** What [series_envelope] returns, when it returns. *)
Lemma series_envelope_ok (self : MetricsExporter) (md : MetricDescriptor)
    (ts : TimeSeries) (e : Envelope) :
  series_envelope self md ts = Ok e <->
  exists p rest v props,
    points ts = p :: rest /\
    (forall q, q ∈ points ts -> has_value q) /\
    p_value p = HasValue v /\
    _create_properties ts md = Ok props /\
    e = _create_envelope self
          {| dp_ns := md_name md; dp_name := md_name md; dp_value := v |}
          (timestamp p) props.
Proof.
  unfold series_envelope. split.
  - intros H.
    apply rbind_ok in H as (dps & Hdps & H).
    apply rbind_ok in H as (dp & Hdp & H).
    apply rbind_ok in H as (p0 & Hp0 & H).
    apply rbind_ok in H as (props & Hprops & [= <-]).
    apply index_ok in Hdp, Hp0.
    apply create_data_points_ok in Hdps.
    destruct (points ts) as [|p rest] eqn:Hpts; [by rewrite lookup_nil in Hp0|].
    simpl in Hp0. injection Hp0 as <-.
    inversion Hdps as [|? dp' ? dps' (v & Hv & ->) HF]; subst.
    simpl in Hdp. injection Hdp as <-.
    exists p, rest, v, props. repeat split; try done.
    intros q Hq. apply list_elem_of_lookup in Hq as (i & Hi).
    destruct (Forall2_lookup_l _ _ _ _ _ Hdps Hi) as (dq & _ & (vq & Hvq & _)).
    by exists vq.
  - intros (p & rest & v & props & Hpts & Hall & Hv & Hprops & ->).
    destruct (create_data_points_total ts md Hall) as [dps Hdps].
    rewrite Hdps. simpl.
    apply create_data_points_ok in Hdps. rewrite Hpts in Hdps.
    inversion Hdps as [|? dp' ? dps' (v' & Hv' & ->) HF]; subst.
    rewrite Hv in Hv'. injection Hv' as <-.
    rewrite Hpts. simpl. rewrite Hprops. reflexivity.
Qed.

(** [series_envelope] fails with an out-of-range index or a missing
    attribute, the latter only on a point without a value. *)
Lemma series_envelope_error_kind (self : MetricsExporter)
    (md : MetricDescriptor) (ts : TimeSeries) (err : PyError) :
  series_envelope self md ts = Err err ->
  (err = IndexError \/ err = AttributeError) /\
  ((forall p, p ∈ points ts -> has_value p) -> err = IndexError).
Proof.
  unfold series_envelope.
  destruct (_create_data_points ts md) as [dps|err'] eqn:Hdps; simpl.
  - assert (Hidx : err = IndexError -> (err = IndexError \/ err = AttributeError) /\
                   ((forall p, p ∈ points ts -> has_value p) -> err = IndexError))
      by auto.
    destruct (index dps 0) as [dp|e1] eqn:H1; simpl.
    + destruct (index (points ts) 0) as [p0|e2] eqn:H2; simpl.
      * destruct (_create_properties ts md) as [props|e3] eqn:H3; simpl;
          [discriminate|].
        intros [= <-]. apply Hidx.
        by apply create_properties_only_index_error in H3.
      * intros [= <-]. apply Hidx. by apply index_err in H2 as [-> _].
    + intros [= <-]. apply Hidx. by apply index_err in H1 as [-> _].
  - intros [= <-]. apply create_data_points_err in Hdps as (-> & p & Hin & Hnone).
    split; [by right|]. intros Hall. destruct (Hall p Hin) as [v Hv]. congruence.
Qed.

(** The envelope of a series is that of its first point alone. *)
Lemma series_envelope_first_point (self : MetricsExporter) (md : MetricDescriptor)
    (ts : TimeSeries) (e : Envelope) :
  series_envelope self md ts = Ok e ->
  series_envelope self md (first_point_only ts) = Ok e.
Proof.
  intros H. apply series_envelope_ok in H
    as (p & rest & v & props & Hpts & Hall & Hv & Hprops & ->).
  apply series_envelope_ok. exists p, [], v, props.
  unfold first_point_only. simpl. rewrite Hpts. simpl.
  repeat split; try done.
  intros q Hq. apply list_elem_of_singleton in Hq as ->. by exists v.
Qed.

Lemma series_envelope_total (self : MetricsExporter) (md : MetricDescriptor)
    (ts : TimeSeries) :
  points ts <> [] ->
  (forall p, p ∈ points ts -> has_value p) ->
  length (label_keys md) <= length (label_values ts) ->
  is_ok (series_envelope self md ts).
Proof.
  intros Hp Hall Hl.
  destruct (points ts) as [|p rest] eqn:Hpts; [done|].
  destruct (Hall p) as [v Hv]; [apply list_elem_of_here|].
  eexists. apply series_envelope_ok.
  exists p, rest, v,
    (foldl assign ∅ (zip (label_keys md) (label_values ts))).
  rewrite Hpts.
  split; [done|]. split; [done|]. split; [done|].
  split; [by apply create_properties_ok|reflexivity].
Qed.

(** A metric that is not a cumulative distribution is converted series
    by series. *)
Lemma metric_to_envelopes_ok (self : MetricsExporter) (metric : Metric)
    (envelopes : list Envelope) :
  md_type (descriptor metric) <> CUMULATIVE_DISTRIBUTION ->
  metric_to_envelopes self metric = Ok envelopes <->
  Forall2 (fun ts e => series_envelope self (descriptor metric) ts = Ok e)
          (time_series metric) envelopes.
Proof.
  intros Hty. rewrite metric_to_envelopes_unfold.
  apply Z.eqb_neq in Hty. rewrite Hty. simpl.
  rewrite for_each_collect. simpl. split.
  - by intros (ys & -> & HF).
  - intros HF. by exists envelopes.
Qed.

(** [metric_to_envelopes] fails with an out-of-range index or a missing
    attribute, the latter only on a point without a value. *)
Lemma metric_to_envelopes_error_kind (self : MetricsExporter)
    (metric : Metric) (err : PyError) :
  metric_to_envelopes self metric = Err err ->
  (err = IndexError \/ err = AttributeError) /\
  ((forall ts p, ts ∈ time_series metric -> p ∈ points ts -> has_value p) ->
   err = IndexError).
Proof.
  rewrite metric_to_envelopes_unfold. destruct (negb _); [|discriminate].
  intros H. apply for_each_collect_err in H as (ts & Hin & H).
  apply series_envelope_error_kind in H as [Hk Hi].
  split; [done|]. intros Hall. apply Hi. intros p Hp. by apply (Hall ts).
Qed.

(** The branch of [metric_to_envelopes] that a cumulative distribution
    takes runs no loop. *)
Lemma metric_to_envelopes_distribution (self : MetricsExporter) (metric : Metric) :
  (md_type (descriptor metric) =? CUMULATIVE_DISTRIBUTION)%Z = true ->
  metric_to_envelopes self metric = Ok [].
Proof.
  intros Hty. unfold metric_to_envelopes. by rewrite Hty.
Qed.

(** C5: a metric whose descriptor type is the cumulative distribution
    (histogram) is converted to the empty list of envelopes, without an
    exception, whatever its time series hold. *)
Theorem histogram_yields_no_envelopes (self : MetricsExporter) (metric : Metric) :
  md_type (descriptor metric) = CUMULATIVE_DISTRIBUTION ->
  metric_to_envelopes self metric = Ok [].
Proof.
  intros Hty. apply metric_to_envelopes_distribution. by apply Z.eqb_eq.
Qed.

(** C9: the time field of every envelope the converter produces is the
    ISO format of the time stamp of the first point of the time series
    the envelope was made from (the envelope at index [i] comes from the
    series at index [i]); the converter reads no clock. *)
Theorem envelope_time_is_measurement_time (self : MetricsExporter)
    (metric : Metric) (envelopes : list Envelope) :
  metric_to_envelopes self metric = Ok envelopes ->
  forall i e,
    envelopes !! i = Some e ->
    exists ts p rest,
      time_series metric !! i = Some ts /\
      points ts = p :: rest /\
      time e = isoformat (timestamp p).
Proof.
  intros Hm i e He.
  destruct (decide (md_type (descriptor metric) = CUMULATIVE_DISTRIBUTION)) as [Hty|Hty].
  - rewrite metric_to_envelopes_distribution in Hm by (by apply Z.eqb_eq).
    injection Hm as <-. by rewrite lookup_nil in He.
  - apply metric_to_envelopes_ok in Hm; [|done].
    destruct (Forall2_lookup_r _ _ _ _ _ Hm He) as (ts & Hts & Hs).
    apply series_envelope_ok in Hs
      as (p & rest & v & props & Hp & _ & _ & _ & ->).
    by exists ts, p, rest.
Qed.

(** C10, as the code has it: for a metric that is not a cumulative
    distribution, whenever [metric_to_envelopes] returns it returns
    exactly one envelope per time series, whose single data point and
    time come from the first point of the series; the later points do
    not enter the envelopes (every series cut down to its first point
    converts to the same envelopes).  A series with no point makes the
    conversion fail.  When every point has a value with the [value]
    attribute, that failure is [IndexError], and the conversion
    succeeds as soon as every series has a point and enough label
    values. *)
Theorem one_envelope_per_series_from_first_point (self : MetricsExporter)
    (metric : Metric) :
  md_type (descriptor metric) <> CUMULATIVE_DISTRIBUTION ->
  (forall envelopes,
      metric_to_envelopes self metric = Ok envelopes ->
      length envelopes = length (time_series metric) /\
      (forall i ts e,
          time_series metric !! i = Some ts ->
          envelopes !! i = Some e ->
          exists p rest v,
            points ts = p :: rest /\
            p_value p = HasValue v /\
            metrics (baseData (data e))
            = [ {| dp_ns := md_name (descriptor metric);
                   dp_name := md_name (descriptor metric);
                   dp_value := v |} ] /\
            time e = isoformat (timestamp p)) /\
      metric_to_envelopes self (first_points_only metric) = Ok envelopes) /\
  ((exists ts, ts ∈ time_series metric /\ points ts = []) ->
   ~ is_ok (metric_to_envelopes self metric)) /\
  ((forall ts p, ts ∈ time_series metric -> p ∈ points ts -> has_value p) ->
   ((exists ts, ts ∈ time_series metric /\ points ts = []) ->
    metric_to_envelopes self metric = Err IndexError) /\
   ((forall ts, ts ∈ time_series metric ->
                points ts <> [] /\
                length (label_keys (descriptor metric))
                <= length (label_values ts)) ->
    is_ok (metric_to_envelopes self metric))).
Proof.
  intros Hty.
  assert (Hempty : (exists ts, ts ∈ time_series metric /\ points ts = []) ->
                   ~ is_ok (metric_to_envelopes self metric)).
  { intros (ts & Hin & Hp) [envelopes Hm].
    apply metric_to_envelopes_ok in Hm; [|done].
    apply list_elem_of_lookup in Hin as (i & Hi).
    destruct (Forall2_lookup_l _ _ _ _ _ Hm Hi) as (e & _ & Hs).
    apply series_envelope_ok in Hs as (p & rest & v & props & Hp' & _).
    congruence. }
  split; [|split; [exact Hempty|]].
  - intros envelopes Hm.
    pose proof (proj1 (metric_to_envelopes_ok self metric envelopes Hty) Hm)
      as HF.
    split; [symmetry; by eapply Forall2_length|]. split.
    + intros i ts e Hts He.
      pose proof (Forall2_lookup_lr _ _ _ _ _ _ HF Hts He) as Hs.
      apply series_envelope_ok in Hs
        as (p & rest & v & props & Hp & _ & Hv & _ & ->).
      by exists p, rest, v.
    + apply metric_to_envelopes_ok; [done|]. simpl.
      apply Forall2_fmap_l. eapply Forall2_impl; [exact HF|].
      intros ts e. apply series_envelope_first_point.
  - intros Hall. split.
    + intros Hex.
      destruct (metric_to_envelopes self metric) as [envelopes|err] eqn:Hm.
      * exfalso. apply (Hempty Hex). by eexists.
      * apply metric_to_envelopes_error_kind in Hm as [_ Hi].
        by rewrite (Hi Hall).
    + intros Hgood.
      destruct (metric_to_envelopes self metric) as [envelopes|err] eqn:Hm;
        [by eexists|].
      rewrite metric_to_envelopes_unfold in Hm.
      apply Z.eqb_neq in Hty. rewrite Hty in Hm. simpl in Hm.
      apply for_each_collect_err in Hm as (ts & Hin & Hs).
      destruct (Hgood ts Hin) as [Hp Hl].
      destruct (series_envelope_total self (descriptor metric) ts Hp
                  (fun p Hp' => Hall ts p Hin Hp') Hl) as [e He].
      congruence.
Qed.

(** ** Batching *)





Lemma window_ok {A : Type} (ible : list A) (size : Z) :
  (0 < size)%Z ->
  window ible size = Ok (chunks (length ible) (Z.to_nat size) ible).
Proof.
  intros H. unfold window. by rewrite (proj2 (Z.leb_gt size 0) H).
Qed.

(** ** The batch loop *)

Lemma send_batch_cases (self : MetricsExporter) (batch : list Envelope) (w : W) :
  exists batch' result w',
    (_is_stats_exporter self && is_STATSBEAT_SHUTDOWN result = true /\
     send_batch self batch w
     = (Return, w', [EvProcess batch; EvTransmit batch' result; EvShutdownStatsbeat]))
    \/
    (_is_stats_exporter self && is_STATSBEAT_SHUTDOWN result = false /\
     send_batch self batch w
     = (Next, w', EvProcess batch :: EvTransmit batch' result
                    :: store_events self batch' result)).
Proof.
  unfold send_batch, bind, call_apply_telemetry_processors, call_transmit,
    store_events.
  destruct (apply_telemetry_processors self batch w) as [batch' w1].
  destruct (_transmit self batch' w1) as [result w2].
  exists batch', result.
  destruct (_is_stats_exporter self && is_STATSBEAT_SHUTDOWN result) eqn:Hs.
  - eexists. left. split; [done|]. reflexivity.
  - destruct (storage self) as [st|]; [destruct (is_RETRY result)|];
      eexists; right; (split; [done|]); reflexivity.
Qed.

Lemma send_batches_trace (self : MetricsExporter) (batches : list (list Envelope)) :
  forall w,
    loop_trace self batches (value (send_batches self batches w))
      (events (send_batches self batches w)).
Proof.
  induction batches as [|batch rest IH]; intros w.
  - apply loop_done.
  - simpl. unfold bind.
    destruct (send_batch_cases self batch w)
      as (batch' & result & w' & [[Hs ->]|[Hs ->]]).
    + simpl. by apply loop_return.
    + specialize (IH w').
      destruct (send_batches self rest w') as [[flow w''] tr]. simpl in *.
      rewrite app_comm_cons. change (EvProcess batch :: EvTransmit batch' result
        :: store_events self batch' result ++ tr) with
        (EvProcess batch :: EvTransmit batch' result
           :: (store_events self batch' result ++ tr)).
      by apply loop_next.
Qed.

Lemma is_RETRY_true (r : TransportStatusCode) : is_RETRY r = true <-> r = RETRY.
Proof. destruct r; simpl; split; congruence. Qed.

Lemma is_STATSBEAT_SHUTDOWN_true (r : TransportStatusCode) :
  is_STATSBEAT_SHUTDOWN r = true <-> r = STATSBEAT_SHUTDOWN.
Proof. destruct r; simpl; split; congruence. Qed.

Lemma store_events_cases (self : MetricsExporter) (batch : list Envelope)
    (result : TransportStatusCode) :
  (store_events self batch result = [] /\
   (storage self = None \/ result <> RETRY)) \/
  (exists st, storage self = Some st /\ result = RETRY /\
              store_events self batch result
              = [EvStoragePut st batch (minimum_retry_interval (options self))]).
Proof.
  unfold store_events. destruct (storage self) as [st|]; [|left; auto].
  destruct (is_RETRY result) eqn:E.
  - right. exists st. apply is_RETRY_true in E. auto.
  - left. split; [done|]. right. intros ->. discriminate.
Qed.

(** The loop hands the batches to the processors in order, all of them
    unless it returns early. *)
Lemma loop_trace_processed (self : MetricsExporter) batches flow tr :
  loop_trace self batches flow tr ->
  processed tr `prefix_of` batches /\ (flow = Next -> processed tr = batches).
Proof.
  induction 1 as [|batch rest batch' result Hs
                  |batch rest batch' result flow tr Hs Hl [IHp IHn]].
  - split; [apply prefix_nil|done].
  - split; [|done]. simpl. apply prefix_cons, prefix_nil.
  - assert (Hp : processed (EvProcess batch :: EvTransmit batch' result
                              :: store_events self batch' result ++ tr)
                 = batch :: processed tr).
    { unfold processed. simpl. rewrite omap_app. f_equal.
      destruct (store_events_cases self batch' result)
        as [[-> _]|(st & _ & _ & ->)]; reflexivity. }
    rewrite Hp. split; [by apply prefix_cons|]. intros Hf. f_equal. auto.
Qed.

(** The loop returns early exactly when it has shut statsbeat down, and
    it never drains the retry store itself. *)
Lemma loop_trace_flow (self : MetricsExporter) batches flow tr :
  loop_trace self batches flow tr ->
  (flow = Return <-> EvShutdownStatsbeat ∈ tr) /\ drains tr = 0.
Proof.
  induction 1 as [|batch rest batch' result Hs
                  |batch rest batch' result flow tr Hs Hl [IHf IHd]].
  - split; [|reflexivity]. split; [discriminate|]. by intros ?%elem_of_nil.
  - split; [|reflexivity]. split; [|done]. intros _.
    do 2 apply list_elem_of_further. apply list_elem_of_here.
  - destruct (store_events_cases self batch' result)
      as [[-> _]|(st & _ & _ & ->)]; simpl.
    + split; [|exact IHd]. rewrite IHf. split.
      * intros Hin. by do 2 apply list_elem_of_further.
      * intros Hin. by do 2 (apply elem_of_cons in Hin as [[=]|Hin]).
    + split; [|exact IHd]. rewrite IHf. split.
      * intros Hin. by do 3 apply list_elem_of_further.
      * intros Hin. by do 3 (apply elem_of_cons in Hin as [[=]|Hin]).
Qed.

(** In a loop trace, a retryable outcome on an exporter with storage is
    followed at once by the put of the transmitted batch. *)
Lemma loop_trace_put_after_retry (self : MetricsExporter) batches flow tr :
  loop_trace self batches flow tr ->
  forall i b st,
    tr !! i = Some (EvTransmit b RETRY) ->
    storage self = Some st ->
    tr !! S i = Some (EvStoragePut st b (minimum_retry_interval (options self))).
Proof.
  induction 1 as [|batch rest batch' result Hs
                  |batch rest batch' result flow tr Hs Hl IH];
    intros i b st Hi Hst.
  - by rewrite lookup_nil in Hi.
  - destruct i as [|[|[|i]]]; simpl in Hi; try done.
    injection Hi as -> ->.
    apply andb_true_iff in Hs as [_ Hs]. discriminate.
  - destruct i as [|[|i]]; simpl in Hi; [done| |].
    + injection Hi as -> ->. simpl. unfold store_events. by rewrite Hst.
    + simpl. apply lookup_app_Some in Hi as [Hi|[Hle Hi]].
      * destruct (store_events_cases self batch' result)
          as [[Hse _]|(st' & _ & _ & Hse)]; rewrite Hse in Hi.
        -- by rewrite lookup_nil in Hi.
        -- apply list_lookup_singleton_Some in Hi as [_ [=]].
      * apply (IH _ _ _ Hi) in Hst.
        rewrite lookup_app_r by lia.
        by replace (S i - length (store_events self batch' result))
          with (S (i - length (store_events self batch' result))) by lia.
Qed.

(** In a loop trace, every put is that of the batch whose transmission
    just before it was retryable, on the storage of the exporter and with
    the configured minimum retry interval. *)
Lemma loop_trace_put_only_after_retry (self : MetricsExporter) batches flow tr :
  loop_trace self batches flow tr ->
  forall j st b p,
    tr !! j = Some (EvStoragePut st b p) ->
    storage self = Some st /\
    p = minimum_retry_interval (options self) /\
    exists i, j = S i /\ tr !! i = Some (EvTransmit b RETRY).
Proof.
  induction 1 as [|batch rest batch' result Hs
                  |batch rest batch' result flow tr Hs Hl IH];
    intros j st b p Hj.
  - by rewrite lookup_nil in Hj.
  - destruct j as [|[|[|j]]]; simpl in Hj; done.
  - destruct j as [|[|j]]; simpl in Hj; [done|done|].
    apply lookup_app_Some in Hj as [Hj|[Hle Hj]].
    + destruct (store_events_cases self batch' result)
        as [[Hse _]|(st' & Hst & -> & Hse)]; rewrite Hse in Hj.
      * by rewrite lookup_nil in Hj.
      * apply list_lookup_singleton_Some in Hj as [-> [= -> -> ->]].
        repeat split; try done. by exists 1.
    + destruct (IH _ _ _ _ Hj) as (Hst & Hp & i & Hi & Ht).
      repeat split; try done.
      exists (S (S (length (store_events self batch' result) + i))).
      split; [lia|]. simpl. rewrite lookup_app_r by lia.
      by replace (length (store_events self batch' result) + i
                  - length (store_events self batch' result)) with i by lia.
Qed.

(** In a loop trace on the statsbeat exporter, a shutdown outcome is
    followed by the shutdown of statsbeat and by nothing else. *)
Lemma loop_trace_shutdown_ends (self : MetricsExporter) batches flow tr :
  loop_trace self batches flow tr ->
  _is_stats_exporter self = true ->
  forall i b,
    tr !! i = Some (EvTransmit b STATSBEAT_SHUTDOWN) ->
    flow = Return /\ tr !! S i = Some EvShutdownStatsbeat /\ length tr = S (S i).
Proof.
  induction 1 as [|batch rest batch' result Hs
                  |batch rest batch' result flow tr Hs Hl IH];
    intros Hstats i b Hi.
  - by rewrite lookup_nil in Hi.
  - destruct i as [|[|[|i]]]; simpl in Hi; done.
  - destruct i as [|[|i]]; simpl in Hi; [done| |].
    + injection Hi as -> ->. rewrite Hstats in Hs. discriminate.
    + apply lookup_app_Some in Hi as [Hi|[Hle Hi]].
      * destruct (store_events_cases self batch' result)
          as [[Hse _]|(st' & _ & _ & Hse)]; rewrite Hse in Hi.
        -- by rewrite lookup_nil in Hi.
        -- apply list_lookup_singleton_Some in Hi as [_ [=]].
      * destruct (IH Hstats _ _ Hi) as (Hf & Hn & Hlen).
        split; [done|]. simpl. rewrite lookup_app_r by lia.
        replace (S i - length (store_events self batch' result))
          with (S (i - length (store_events self batch' result))) by lia.
        split; [done|]. rewrite length_app, Hlen. lia.
Qed.

(** ** The export cycle *)

Lemma dispatch_events (self : MetricsExporter) (envelopes : list Envelope)
    (batches : list (list Envelope)) (w : W) :
  exists flow tr,
    loop_trace self batches flow tr /\
    events (dispatch self envelopes batches w)
    = tr ++ drain_events self envelopes flow.
Proof.
  pose proof (send_batches_trace self batches w) as Hl.
  unfold dispatch, bind.
  destruct (send_batches self batches w) as [[flow w1] tr]. simpl in Hl.
  exists flow, tr. split; [done|].
  unfold drain_events. destruct flow; [|by simpl].
  destruct (Z.of_nat (length envelopes) <? max_batch_size (options self))%Z;
    reflexivity.
Qed.

Lemma export_metrics_inv (self : MetricsExporter) (metrics : list Metric)
    (w : W) r :
  export_metrics self metrics w = Ok r ->
  exists envelopes batches,
    gather_envelopes self metrics = Ok envelopes /\
    window envelopes (self_max_batch_size self) = Ok batches /\
    r = dispatch self envelopes batches w.
Proof.
  unfold export_metrics. intros H.
  apply rbind_ok in H as (envelopes & Hg & H).
  apply rbind_ok in H as (batches & Hw & [= <-]).
  by exists envelopes, batches.
Qed.

Lemma drain_events_lookup (self : MetricsExporter) envelopes flow i e :
  drain_events self envelopes flow !! i = Some e -> e = EvTransmitFromStorage.
Proof.
  unfold drain_events. destruct flow; [|by rewrite lookup_nil].
  destruct (_ <? _)%Z; [|by rewrite lookup_nil].
  by intros [_ ->]%list_lookup_singleton_Some.
Qed.

(** An event of the cycle that is not the drain is an event of the loop. *)
Lemma cycle_lookup_loop (self : MetricsExporter) envelopes flow
    (tr : list Event) i e :
  (tr ++ drain_events self envelopes flow) !! i = Some e ->
  e <> EvTransmitFromStorage ->
  tr !! i = Some e.
Proof.
  intros [H|[_ H]]%lookup_app_Some Hne; [done|].
  by apply drain_events_lookup in H.
Qed.

Lemma store_events_silent (self : MetricsExporter) (batch : list Envelope)
    (result : TransportStatusCode) :
  processed (store_events self batch result) = [] /\
  transmitted (store_events self batch result) = [].
Proof.
  destruct (store_events_cases self batch result)
    as [[-> _]|(st & _ & _ & ->)]; by split.
Qed.

Lemma drain_events_silent (self : MetricsExporter) (envelopes : list Envelope)
    (flow : Flow) :
  processed (drain_events self envelopes flow) = [] /\
  transmitted (drain_events self envelopes flow) = [] /\
  stored (drain_events self envelopes flow) = [].
Proof.
  unfold drain_events. destruct flow; [|done]. by destruct (_ <? _)%Z.
Qed.

(** Every round of the loop hands one batch to the processors and one to
    the transport. *)
Lemma loop_trace_rounds (self : MetricsExporter) batches flow tr :
  loop_trace self batches flow tr ->
  length (transmitted tr) = length (processed tr).
Proof.
  induction 1 as [|batch rest batch' result Hs
                  |batch rest batch' result flow tr Hs Hl IH];
    [reflexivity|reflexivity|].
  destruct (store_events_silent self batch' result) as [Hp Ht].
  unfold transmitted, processed in *. simpl. rewrite !omap_app, Hp, Ht.
  simpl. by rewrite IH.
Qed.

Lemma dispatch_events_loop (self : MetricsExporter) (envelopes : list Envelope)
    (batches : list (list Envelope)) (w : W) :
  events (dispatch self envelopes batches w)
  = events (send_batches self batches w)
    ++ drain_events self envelopes (value (send_batches self batches w)).
Proof.
  unfold dispatch, bind.
  destruct (send_batches self batches w) as [[flow w1] tr]. simpl.
  unfold drain_events. destruct flow; [|done]. by destruct (_ <? _)%Z.
Qed.





(** C3: in an export cycle, a transmitted batch is written to the
    retry store if and only if local storage is enabled and the outcome
    of its transmission is [RETRY]: a [RETRY] outcome on an exporter with
    storage is followed at once by the put of that batch with the
    configured minimum retry interval, and every put of the cycle is the
    put of the batch transmitted just before it with outcome [RETRY], on
    the storage of the exporter; so after any other outcome (a
    non-retryable one in particular) no put follows. *)
Theorem batch_stored_iff_storage_and_retry (self : MetricsExporter)
    (metrics : list Metric) (w : W) r :
  export_metrics self metrics w = Ok r ->
  (forall i b st,
      events r !! i = Some (EvTransmit b RETRY) ->
      storage self = Some st ->
      events r !! S i
      = Some (EvStoragePut st b (minimum_retry_interval (options self)))) /\
  (forall j st b p,
      events r !! j = Some (EvStoragePut st b p) ->
      storage self = Some st /\
      p = minimum_retry_interval (options self) /\
      exists i, j = S i /\ events r !! i = Some (EvTransmit b RETRY)) /\
  (forall i b res st b' p,
      events r !! i = Some (EvTransmit b res) ->
      events r !! S i = Some (EvStoragePut st b' p) ->
      storage self = Some st /\ res = RETRY /\ b' = b) /\
  (forall i b st b' p,
      events r !! i = Some (EvTransmit b NON_RETRYABLE) ->
      events r !! S i <> Some (EvStoragePut st b' p)).
Proof.
  intros Hr. apply export_metrics_inv in Hr as (envelopes & batches & _ & _ & ->).
  destruct (dispatch_events self envelopes batches w) as (flow & tr & Hl & ->).
  assert (Hput : forall j st b p,
    (tr ++ drain_events self envelopes flow) !! j = Some (EvStoragePut st b p) ->
    storage self = Some st /\
    p = minimum_retry_interval (options self) /\
    exists i, j = S i /\
      (tr ++ drain_events self envelopes flow) !! i = Some (EvTransmit b RETRY)).
  { intros j st b p Hj. apply cycle_lookup_loop in Hj; [|done].
    destruct (loop_trace_put_only_after_retry _ _ _ _ Hl _ _ _ _ Hj)
      as (Hst & Hp & i & -> & Hi).
    repeat split; try done. exists i. split; [done|].
    by apply lookup_app_l_Some. }
  assert (Hnext : forall i b res st b' p,
    (tr ++ drain_events self envelopes flow) !! i = Some (EvTransmit b res) ->
    (tr ++ drain_events self envelopes flow) !! S i = Some (EvStoragePut st b' p) ->
    storage self = Some st /\ res = RETRY /\ b' = b).
  { intros i b res st b' p Hi Hj.
    destruct (Hput _ _ _ _ Hj) as (Hst & _ & i' & [= <-] & Hi').
    rewrite Hi in Hi'. by injection Hi' as -> ->. }
  repeat split.
  - intros i b st Hi Hst. apply cycle_lookup_loop in Hi; [|done].
    apply lookup_app_l_Some.
    by apply (loop_trace_put_after_retry _ _ _ _ Hl).
  - by apply (Hput j st b p).
  - by apply (Hput j st b p).
  - by apply (Hput j st b p).
  - by apply (Hnext i b res st b' p).
  - by apply (Hnext i b res st b' p).
  - by apply (Hnext i b res st b' p).
  - intros i b st b' p Hi Hj.
    by destruct (Hnext _ _ _ _ _ _ Hi Hj) as (_ & [=] & _).
Qed.

(** C8: on the statsbeat exporter, a transmission that returns the
    shutdown status is followed by the shutdown of the statsbeat metrics
    and by nothing else: the trace of the cycle ends there, so that no
    further batch is processed, transmitted or stored and the retry
    store is not drained. *)
Theorem statsbeat_shutdown_ends_cycle (self : MetricsExporter)
    (metrics : list Metric) (w : W) r :
  _is_stats_exporter self = true ->
  export_metrics self metrics w = Ok r ->
  forall i b,
    events r !! i = Some (EvTransmit b STATSBEAT_SHUTDOWN) ->
    events r !! S i = Some EvShutdownStatsbeat /\
    length (events r) = S (S i) /\
    length (transmitted (events r)) = length (processed (events r)) /\
    (forall j e, i < j -> events r !! j = Some e -> e = EvShutdownStatsbeat) /\
    drains (events r) = 0.
Proof.
  intros Hstats Hr i b Hi.
  apply export_metrics_inv in Hr as (envelopes & batches & _ & _ & ->).
  destruct (dispatch_events self envelopes batches w) as (flow & tr & Hl & Hev).
  rewrite Hev in *. clear Hev.
  apply cycle_lookup_loop in Hi; [|done].
  destruct (loop_trace_shutdown_ends _ _ _ _ Hl Hstats _ _ Hi) as (-> & Hn & Hlen).
  simpl. rewrite app_nil_r.
  split; [done|]. split; [done|]. split.
  { clear Hi Hn Hlen. remember Return as flow eqn:Hflow. clear Hflow.
    induction Hl as [|batch rest batch' result Hs
                     |batch rest batch' result flow tr Hs Hl IH];
      [reflexivity|reflexivity|].
    unfold transmitted, processed in *. simpl. rewrite !omap_app.
    destruct (store_events_cases self batch' result)
      as [[-> _]|(st & _ & _ & ->)]; simpl; by rewrite IH. }
  split.
  - intros j e Hj He.
    assert (j = S i) as ->
      by (apply lookup_lt_Some in He; lia).
    congruence.
  - by destruct (loop_trace_flow _ _ _ _ Hl) as [_ Hd].
Qed.


(** ** Construction *)

(** The gathering loop fails with the failure of a metric: an
    out-of-range index or a missing attribute. *)
Lemma gather_envelopes_error_kind (self : MetricsExporter)
    (metrics : list Metric) (err : PyError) :
  gather_envelopes self metrics = Err err ->
  exists metric,
    metric ∈ metrics /\
    metric_to_envelopes self metric = Err err /\
    (err = IndexError \/ err = AttributeError).
Proof.
  unfold gather_envelopes. intros H.
  apply for_each_err in H as (metric & acc & Hin & H).
  destruct (metric_to_envelopes self metric) as [es|err'] eqn:Hm; [discriminate|].
  simpl in H. injection H as <-.
  exists metric. split; [done|]. split; [done|].
  by apply metric_to_envelopes_error_kind in Hm as [Hk _].
Qed.

(** C4: configuration errors are raised by the constructor and only by
    it.  A missing, empty or ill-formed instrumentation key makes
    [__init__] raise [ValueError], and so does a maximum batch size of 0
    or less; with a well-formed key and a positive maximum batch size
    [__init__] returns the exporter, built from the options; and on an
    exporter that [__init__] returned, [export_metrics] never raises
    [ValueError] (its batching is called with a positive size). *)
Theorem configuration_errors_fail_fast (is_stats : bool) (opts : Options) :
  ((instrumentation_key opts = None \/
    instrumentation_key opts = Some "" \/
    (exists k, instrumentation_key opts = Some k /\ well_formed_key k = false)) ->
   exists msg, __init__ is_stats opts = Err (ValueError msg)) /\
  ((max_batch_size opts <= 0)%Z ->
   exists msg, __init__ is_stats opts = Err (ValueError msg)) /\
  (forall k,
      instrumentation_key opts = Some k ->
      k <> "" ->
      well_formed_key k = true ->
      (0 < max_batch_size opts)%Z ->
      exists self,
        __init__ is_stats opts = Ok self /\
        options self = opts /\
        _is_stats self = is_stats /\
        self_max_batch_size self = max_batch_size opts /\
        (storage self <> None <-> enable_local_storage opts = true) /\
        exporter_thread self = None) /\
  (forall self,
      __init__ is_stats opts = Ok self ->
      (0 < self_max_batch_size self)%Z /\
      forall metrics w,
        (forall msg, export_metrics self metrics w <> Err (ValueError msg)) /\
        (is_ok (gather_envelopes self metrics) ->
         is_ok (export_metrics self metrics w))).
Proof.
  split; [|split; [|split]].
  - unfold __init__, validate_instrumentation_key.
    intros [->|[->|(k & -> & Hk)]]; simpl; [by eexists|by eexists|].
    destruct (String.eqb k ""); simpl; [by eexists|].
    rewrite Hk. simpl. by eexists.
  - intros Hle. unfold __init__.
    destruct (validate_instrumentation_key (instrumentation_key opts))
      as [[]|[msg| |]] eqn:Hv; simpl.
    + rewrite (proj2 (Z.leb_le _ _) Hle). by eexists.
    + by eexists.
    + unfold validate_instrumentation_key in Hv.
      destruct (instrumentation_key opts) as [k|]; [|discriminate].
      destruct (String.eqb k ""); [discriminate|].
      destruct (well_formed_key k); discriminate.
    + unfold validate_instrumentation_key in Hv.
      destruct (instrumentation_key opts) as [k|]; [|discriminate].
      destruct (String.eqb k ""); [discriminate|].
      destruct (well_formed_key k); discriminate.
  - intros k Hk Hne Hwf Hpos. unfold __init__, validate_instrumentation_key.
    rewrite Hk. apply String.eqb_neq in Hne. rewrite Hne, Hwf. simpl.
    rewrite (proj2 (Z.leb_gt _ _) Hpos).
    eexists. split; [reflexivity|]. simpl. repeat split; try done.
    + by destruct (enable_local_storage opts).
    + intros ->. discriminate.
  - intros self Hinit.
    assert (Hpos : (0 < self_max_batch_size self)%Z).
    { unfold __init__ in Hinit.
      destruct (validate_instrumentation_key _); simpl in Hinit; [|discriminate].
      destruct (Z.leb_spec (max_batch_size opts) 0); [discriminate|].
      injection Hinit as <-. done. }
    split; [done|]. intros metrics w. split.
    + intros msg. unfold export_metrics.
      destruct (gather_envelopes self metrics) as [envelopes|err] eqn:Hg; simpl.
      * by rewrite window_ok.
      * apply gather_envelopes_error_kind in Hg as (_ & _ & _ & [-> | ->]);
          discriminate.
    + intros [envelopes Hg]. unfold export_metrics. rewrite Hg. simpl.
      rewrite window_ok by done. simpl. by eexists.
Qed.

(** ** Shutdown *)

(** The release calls of one [shutdown]. *)
Lemma shutdown_events (self : MetricsExporter) (w : W) :
  events (shutdown self w)
  = match exporter_thread self with
    | Some t => [if _is_stats self then EvThreadCancel t else EvThreadClose t]
    | None => []
    end
    ++ match storage self with
       | Some st => [EvStorageClose st]
       | None => []
       end.
Proof.
  unfold shutdown, bind.
  destruct (exporter_thread self) as [t|], (storage self) as [st|],
    (_is_stats self); reflexivity.
Qed.

(** C2, as the code has it: [shutdown] has no guard of its own.  It
    reads the exporter and does not change it, so a second call in
    succession makes the same release calls as the first: it closes (or,
    for the statsbeat instance, cancels) the exporter thread again when
    one is attached, and closes the storage again when there is one.
    The second call is a no-op only for an exporter with neither a
    thread nor a storage. *)
Theorem shutdown_twice_repeats_release (self : MetricsExporter) (w : W) :
  events (shutdown self (world (shutdown self w))) = events (shutdown self w) /\
  (forall t, exporter_thread self = Some t ->
             (if _is_stats self then EvThreadCancel t else EvThreadClose t)
             ∈ events (shutdown self (world (shutdown self w)))) /\
  (forall st, storage self = Some st ->
              EvStorageClose st ∈ events (shutdown self (world (shutdown self w)))) /\
  (events (shutdown self (world (shutdown self w))) = [] <->
   exporter_thread self = None /\ storage self = None).
Proof.
  rewrite !shutdown_events. split; [reflexivity|]. split; [|split].
  - intros t ->. apply elem_of_app. left. apply list_elem_of_here.
  - intros st ->. apply elem_of_app. right. apply list_elem_of_here.
  - destruct (exporter_thread self) as [t|], (storage self) as [st|]; simpl;
      split; try discriminate; try done; intros [? ?]; discriminate.
Qed.

(** * Further properties of the converter *)

Lemma create_properties_ok_length (ts : TimeSeries) (md : MetricDescriptor) :
  is_ok (_create_properties ts md) ->
  length (label_keys md) <= length (label_values ts).
Proof.
  intros [props Hp].
  destruct (decide (length (label_keys md) <= length (label_values ts)))
    as [H|H]; [done|].
  rewrite create_properties_short_values in Hp by lia. discriminate.
Qed.

(** X5: [_create_properties] succeeds exactly when the time series has
    at least as many label values as the descriptor has label keys, and
    raises [IndexError] otherwise. *)
Theorem create_properties_ok_iff (ts : TimeSeries) (md : MetricDescriptor) :
  (is_ok (_create_properties ts md) <->
   length (label_keys md) <= length (label_values ts)) /\
  (_create_properties ts md = Err IndexError <->
   length (label_values ts) < length (label_keys md)).
Proof.
  destruct (decide (length (label_keys md) <= length (label_values ts))) as [H|H].
  - rewrite create_properties_ok by done. split; split.
    + done.
    + intros _. by eexists.
    + discriminate.
    + lia.
  - rewrite create_properties_short_values by lia. split; split.
    + by intros [? ?].
    + done.
    + lia.
    + done.
Qed.

(** X6: [_create_properties] reads only the label values at the indices
    of the label keys: two time series that agree on their first
    [len(label_keys)] label values get the same result, whatever their
    further label values and their points. *)
Theorem create_properties_reads_prefix (ts ts' : TimeSeries) (md : MetricDescriptor) :
  take (length (label_keys md)) (label_values ts)
  = take (length (label_keys md)) (label_values ts') ->
  _create_properties ts md = _create_properties ts' md.
Proof.
  intros Ht.
  pose proof (f_equal length Ht) as Hl. rewrite !length_take in Hl.
  destruct (decide (length (label_keys md) <= length (label_values ts))) as [H|H].
  - rewrite !create_properties_ok by lia.
    rewrite <- (zip_with_take_r _ _ (label_values ts)),
            <- (zip_with_take_r _ _ (label_values ts')).
    by rewrite Ht.
  - rewrite !take_ge in Ht by lia.
    unfold _create_properties. by rewrite Ht.
Qed.

Lemma foldl_assign_lookup_last (l : list (LabelKey * LabelValue))
    (acc : gmap string string) (s : string) :
  foldl assign acc l !! s
  = match last (omap (fun kv => if decide (key kv.1 = s)
                                then Some (label_text kv.2)
                                else None) l) with
    | Some v => Some v
    | None => acc !! s
    end.
Proof.
  revert acc. induction l as [|kv l IH]; intros acc; simpl; [reflexivity|].
  rewrite IH. clear IH.
  destruct (decide (key kv.1 = s)) as [Hk|Hk].
  - rewrite last_cons.
    destruct (last _); [reflexivity|].
    unfold assign. by rewrite Hk, lookup_insert_eq.
  - destruct (last _); [reflexivity|].
    unfold assign. by rewrite lookup_insert_ne.
Qed.

(** X7: the value the properties hold for a string [s] is the text of
    the label value at the last index whose label key is [s] (a later
    occurrence of a key overwrites an earlier one), and there is no
    entry for a string that is not a label key. *)
Theorem create_properties_lookup (ts : TimeSeries) (md : MetricDescriptor)
    (props : gmap string string) :
  _create_properties ts md = Ok props ->
  forall s,
    props !! s
    = last (omap (fun kv : LabelKey * LabelValue =>
                    if decide (key kv.1 = s)
                    then Some (match lv_value kv.2 with
                               | None => "null"
                               | Some v => v
                               end)
                    else None)
                 (zip (label_keys md) (label_values ts))).
Proof.
  intros Hp s.
  destruct (decide (length (label_keys md) <= length (label_values ts))) as [H|H].
  - rewrite create_properties_ok in Hp by done. injection Hp as <-.
    rewrite foldl_assign_lookup_last, lookup_empty.
    unfold label_text. by destruct (last _).
  - rewrite create_properties_short_values in Hp by lia. discriminate.
Qed.

(** X8: [_create_data_points] reads the value of every point of the
    series, not only of the first, which is the one the converter uses:
    it succeeds exactly when every point has a value with the [value]
    attribute, and raises [AttributeError] otherwise.  When it succeeds
    it returns one data point per point, in order, whose namespace and
    name are both the name of the descriptor and whose value is the
    value of the point. *)
Theorem create_data_points_pointwise (ts : TimeSeries) (md : MetricDescriptor) :
  (is_ok (_create_data_points ts md) <->
   forall p, p ∈ points ts -> has_value p) /\
  (forall err, _create_data_points ts md = Err err -> err = AttributeError) /\
  (forall dps,
      _create_data_points ts md = Ok dps ->
      length dps = length (points ts) /\
      forall i p,
        points ts !! i = Some p ->
        exists v,
          p_value p = HasValue v /\
          dps !! i = Some {| dp_ns := md_name md;
                             dp_name := md_name md;
                             dp_value := v |}).
Proof.
  split; [|split].
  - split; [|apply create_data_points_total].
    intros [dps Hdps] p Hin. apply create_data_points_ok in Hdps.
    apply list_elem_of_lookup in Hin as (i & Hi).
    destruct (Forall2_lookup_l _ _ _ _ _ Hdps Hi) as (dp & _ & (v & Hv & _)).
    by exists v.
  - intros err Herr. by apply create_data_points_err in Herr as [-> _].
  - intros dps Hdps. apply create_data_points_ok in Hdps. split.
    + symmetry. by eapply Forall2_length.
    + intros i p Hi.
      destruct (Forall2_lookup_l _ _ _ _ _ Hdps Hi) as (dp & Hdp & (v & Hv & ->)).
      by exists v.
Qed.

(** A metric that converts, and is no cumulative distribution, has only
    series with a point, values on all points and enough label values. *)
Lemma metric_to_envelopes_ok_series (self : MetricsExporter) (metric : Metric)
    (envelopes : list Envelope) (ts : TimeSeries) :
  metric_to_envelopes self metric = Ok envelopes ->
  md_type (descriptor metric) <> CUMULATIVE_DISTRIBUTION ->
  ts ∈ time_series metric ->
  points ts <> [] /\
  (forall p, p ∈ points ts -> has_value p) /\
  length (label_keys (descriptor metric)) <= length (label_values ts).
Proof.
  intros Hm Hty Hin.
  apply metric_to_envelopes_ok in Hm; [|done].
  apply list_elem_of_lookup in Hin as (i & Hi).
  destruct (Forall2_lookup_l _ _ _ _ _ Hm Hi) as (e & _ & Hs).
  apply series_envelope_ok in Hs
    as (p & rest & v & props & Hp & Hall & _ & Hprops & _).
  split; [by rewrite Hp|]. split; [done|].
  apply create_properties_ok_length. by eexists.
Qed.

(** X9: [metric_to_envelopes] succeeds exactly when the metric is a
    cumulative distribution or every time series has a point, a value
    with the [value] attribute on every point, and at least as many
    label values as the descriptor has label keys.  When it fails it
    raises [IndexError] or [AttributeError], and [IndexError] if every
    point has a value. *)
Theorem metric_to_envelopes_ok_iff (self : MetricsExporter) (metric : Metric) :
  (is_ok (metric_to_envelopes self metric) <->
   md_type (descriptor metric) = CUMULATIVE_DISTRIBUTION \/
   forall ts, ts ∈ time_series metric ->
              points ts <> [] /\
              (forall p, p ∈ points ts -> has_value p) /\
              length (label_keys (descriptor metric)) <= length (label_values ts)) /\
  (forall err,
      metric_to_envelopes self metric = Err err ->
      (err = IndexError \/ err = AttributeError) /\
      ((forall ts p, ts ∈ time_series metric -> p ∈ points ts -> has_value p) ->
       err = IndexError)).
Proof.
  split; [|intros err; apply metric_to_envelopes_error_kind].
  destruct (decide (md_type (descriptor metric) = CUMULATIVE_DISTRIBUTION))
    as [Hty|Hty].
  - rewrite metric_to_envelopes_distribution by (by apply Z.eqb_eq).
    split; [by left|]. intros _. by eexists.
  - split.
    + intros [envelopes Hm]. right. intros ts Hin.
      by apply (metric_to_envelopes_ok_series self metric envelopes).
    + intros [Hc|Hall]; [done|].
      destruct (metric_to_envelopes self metric) as [envelopes|err] eqn:Hm;
        [by eexists|].
      rewrite metric_to_envelopes_unfold in Hm.
      apply Z.eqb_neq in Hty. rewrite Hty in Hm. simpl in Hm.
      apply for_each_collect_err in Hm as (ts & Hin & Hs).
      destruct (Hall ts Hin) as (Hp & Hv & Hl).
      destruct (series_envelope_total self (descriptor metric) ts Hp Hv Hl)
        as [e He].
      congruence.
Qed.

(** X3: every envelope [metric_to_envelopes] produces carries the
    instrumentation key of the options, a copy of the Azure Monitor
    context as tags, the name "Statsbeat" on a statsbeat exporter and
    "Microsoft.ApplicationInsights.Metric" otherwise, the base type
    "MetricData", and exactly one data point, named after the
    descriptor. *)
Theorem envelope_header (self : MetricsExporter) (metric : Metric)
    (envelopes : list Envelope) :
  metric_to_envelopes self metric = Ok envelopes ->
  forall e,
    e ∈ envelopes ->
    iKey e = instrumentation_key (options self) /\
    tags e = azure_monitor_context /\
    env_name e = (if _is_stats self
                  then "Statsbeat"
                  else "Microsoft.ApplicationInsights.Metric") /\
    baseType (data e) = "MetricData" /\
    exists v,
      metrics (baseData (data e))
      = [ {| dp_ns := md_name (descriptor metric);
             dp_name := md_name (descriptor metric);
             dp_value := v |} ].
Proof.
  intros Hm e Hin.
  destruct (decide (md_type (descriptor metric) = CUMULATIVE_DISTRIBUTION))
    as [Hty|Hty].
  - rewrite metric_to_envelopes_distribution in Hm by (by apply Z.eqb_eq).
    injection Hm as <-. by apply elem_of_nil in Hin.
  - apply metric_to_envelopes_ok in Hm; [|done].
    apply list_elem_of_lookup in Hin as (i & Hi).
    destruct (Forall2_lookup_r _ _ _ _ _ Hm Hi) as (ts & _ & Hs).
    apply series_envelope_ok in Hs
      as (p & rest & v & props & _ & _ & _ & _ & ->).
    simpl. repeat split. by eexists.
Qed.

(** X4: the properties of the envelope at index [i] are what
    [_create_properties] returns for the time series at index [i], so
    that every envelope of a metric has exactly the label keys of the
    descriptor as the keys of its properties. *)
Theorem envelope_properties (self : MetricsExporter) (metric : Metric)
    (envelopes : list Envelope) :
  metric_to_envelopes self metric = Ok envelopes ->
  forall i ts e,
    time_series metric !! i = Some ts ->
    envelopes !! i = Some e ->
    _create_properties ts (descriptor metric)
    = Ok (properties (baseData (data e))) /\
    dom (properties (baseData (data e)))
    = list_to_set (key <$> label_keys (descriptor metric)).
Proof.
  intros Hm i ts e Hts He.
  destruct (decide (md_type (descriptor metric) = CUMULATIVE_DISTRIBUTION))
    as [Hty|Hty].
  - rewrite metric_to_envelopes_distribution in Hm by (by apply Z.eqb_eq).
    injection Hm as <-. by rewrite lookup_nil in He.
  - apply metric_to_envelopes_ok in Hm; [|done].
    pose proof (Forall2_lookup_lr _ _ _ _ _ _ Hm Hts He) as Hs.
    apply series_envelope_ok in Hs
      as (p & rest & v & props & _ & _ & _ & Hprops & ->).
    simpl. split; [done|].
    assert (Hlen : length (label_keys (descriptor metric))
                   <= length (label_values ts)).
    { apply create_properties_ok_length. by eexists. }
    rewrite create_properties_ok in Hprops by done. injection Hprops as <-.
    rewrite foldl_assign_dom, dom_empty_L, union_empty_l_L.
    rewrite <- (fst_zip (label_keys (descriptor metric)) (label_values ts))
      at 2 by done.
    by rewrite <- list_fmap_compose.
Qed.

(** * Further properties of the export cycle *)

(** A loop whose body appends the items one round converts to. *)
Lemma for_each_extend {A B : Type} (f : A -> result (list B)) (xs : list A) :
  forall acc out,
    for_each xs (fun x acc => let? ys := f x in Ok (acc ++ ys)) acc = Ok out <->
    exists yss, Forall2 (fun x ys => f x = Ok ys) xs yss /\ out = acc ++ concat yss.
Proof.
  induction xs as [|x xs IH]; intros acc out; simpl.
  - split.
    + intros [= <-]. exists []. split; [constructor|]. by rewrite app_nil_r.
    + intros (yss & HF & ->). inversion HF. by rewrite app_nil_r.
  - rewrite rbind_ok. split.
    + intros (acc' & Hb & Hrest). apply rbind_ok in Hb as (ys & Hy & [= <-]).
      apply IH in Hrest as (yss & HF & ->).
      exists (ys :: yss). split; [by constructor|]. simpl. by rewrite app_assoc.
    + intros (yss & HF & ->). inversion HF as [|? ys ? yss' Hy HF']; subst.
      exists (acc ++ ys). split.
      * by rewrite Hy.
      * apply IH. exists yss'. split; [done|]. simpl. by rewrite app_assoc.
Qed.

(** X1: the first loop of [export_metrics] succeeds exactly when every
    metric converts, and the envelopes it gathers are then the envelopes
    of the metrics one after the other, in the order of the metrics. *)
Theorem gather_envelopes_concat (self : MetricsExporter) (metrics : list Metric)
    (envelopes : list Envelope) :
  gather_envelopes self metrics = Ok envelopes <->
  exists per_metric,
    Forall2 (fun metric es => metric_to_envelopes self metric = Ok es)
            metrics per_metric /\
    envelopes = concat per_metric.
Proof.
  unfold gather_envelopes. rewrite for_each_extend. simpl. done.
Qed.

(** X2: one metric that does not convert makes the whole export cycle
    raise: when some metric that is not a cumulative distribution has a
    time series without points, or with fewer label values than the
    descriptor has label keys, [export_metrics] raises from the
    gathering loop, hence before any batch is transmitted, whatever the
    other metrics hold.  The exception is that of the first metric that
    does not convert: [IndexError] or [AttributeError], and [IndexError]
    when every point of every metric that is not a cumulative
    distribution has a value with the [value] attribute. *)
Theorem export_metrics_raises_on_unconvertible_metric (self : MetricsExporter)
    (metrics : list Metric) (w : W) (metric : Metric) (ts : TimeSeries) :
  metric ∈ metrics ->
  md_type (descriptor metric) <> CUMULATIVE_DISTRIBUTION ->
  ts ∈ time_series metric ->
  points ts = [] \/
  length (label_values ts) < length (label_keys (descriptor metric)) ->
  exists err,
    export_metrics self metrics w = Err err /\
    (err = IndexError \/ err = AttributeError) /\
    ((forall m ts' p,
         m ∈ metrics ->
         md_type (descriptor m) <> CUMULATIVE_DISTRIBUTION ->
         ts' ∈ time_series m -> p ∈ points ts' -> has_value p) ->
     err = IndexError).
Proof.
  intros Hin Hty Hts Hbad. unfold export_metrics.
  destruct (gather_envelopes self metrics) as [envelopes|err] eqn:Hg; simpl.
  - exfalso. unfold gather_envelopes in Hg.
    apply for_each_extend in Hg as (per_metric & HF & _).
    apply list_elem_of_lookup in Hin as (i & Hi).
    destruct (Forall2_lookup_l _ _ _ _ _ HF Hi) as (es & _ & Hm).
    destruct (metric_to_envelopes_ok_series self metric es ts Hm Hty Hts)
      as (Hp & _ & Hl).
    destruct Hbad as [Hb|Hb]; [done|lia].
  - exists err. split; [done|].
    apply gather_envelopes_error_kind in Hg as (m & Hm & Herr & Hk).
    split; [done|]. intros Hall.
    destruct (decide (md_type (descriptor m) = CUMULATIVE_DISTRIBUTION))
      as [Hc|Hc].
    + rewrite metric_to_envelopes_distribution in Herr by (by apply Z.eqb_eq).
      discriminate.
    + apply metric_to_envelopes_error_kind in Herr as [_ Hi].
      apply Hi. intros ts' p Hts' Hp. by apply (Hall m ts' p).
Qed.

(** An exporter that is not the statsbeat exporter never leaves the loop
    early. *)
Lemma loop_trace_primary (self : MetricsExporter) batches flow tr :
  loop_trace self batches flow tr ->
  _is_stats_exporter self = false ->
  flow = Next.
Proof.
  induction 1 as [|batch rest batch' result Hs
                  |batch rest batch' result flow tr Hs Hl IH]; intros Hstats.
  - reflexivity.
  - rewrite Hstats in Hs. discriminate.
  - by apply IH.
Qed.

(** The retry store receives the retried batches, in order. *)
Lemma loop_trace_stored (self : MetricsExporter) batches flow tr :
  loop_trace self batches flow tr ->
  stored tr
  = omap (fun br : list Envelope * TransportStatusCode =>
            match storage self with
            | Some _ =>
                if is_RETRY br.2
                then Some (br.1, minimum_retry_interval (options self))
                else None
            | None => None
            end) (transmitted tr).
Proof.
  induction 1 as [|batch rest batch' result Hs
                  |batch rest batch' result flow tr Hs Hl IH].
  - reflexivity.
  - apply andb_true_iff in Hs as [_ Hs].
    apply is_STATSBEAT_SHUTDOWN_true in Hs as ->.
    simpl. by destruct (storage self).
  - destruct (store_events_silent self batch' result) as [_ Ht].
    unfold stored, transmitted in *. simpl. rewrite !omap_app, Ht, IH. simpl.
    unfold store_events.
    destruct (storage self) as [st|]; [|reflexivity].
    by destruct (is_RETRY result).
Qed.

(** X11: an exporter that is not the statsbeat exporter dispatches every
    batch of the cycle, in order, each exactly once, and never shuts the
    statsbeat metrics down, whatever the transport returns (the
    shutdown status included). *)
Theorem primary_exporter_dispatches_every_batch (self : MetricsExporter)
    (metrics : list Metric) (envelopes : list Envelope)
    (batches : list (list Envelope)) (w : W) r :
  _is_stats_exporter self = false ->
  gather_envelopes self metrics = Ok envelopes ->
  window envelopes (self_max_batch_size self) = Ok batches ->
  export_metrics self metrics w = Ok r ->
  processed (events r) = batches /\
  length (transmitted (events r)) = length batches /\
  EvShutdownStatsbeat ∉ events r.
Proof.
  intros Hstats Hg Hw Hr. unfold export_metrics in Hr.
  rewrite Hg in Hr. simpl in Hr. rewrite Hw in Hr. simpl in Hr.
  injection Hr as <-.
  destruct (dispatch_events self envelopes batches w) as (flow & tr & Hl & ->).
  pose proof (loop_trace_primary _ _ _ _ Hl Hstats) as ->.
  destruct (loop_trace_processed _ _ _ _ Hl) as [_ Hall].
  destruct (loop_trace_flow _ _ _ _ Hl) as [Hflow _].
  destruct (drain_events_silent self envelopes Next) as (Hp & Ht & _).
  unfold processed, transmitted in *. rewrite !omap_app, Hp, Ht, !app_nil_r.
  split; [by apply Hall|]. split.
  - pose proof (loop_trace_rounds _ _ _ _ Hl) as Hrounds.
    unfold processed, transmitted in Hrounds. rewrite Hrounds.
    f_equal. by apply Hall.
  - intros [Hin|Hin]%elem_of_app.
    + by apply Hflow in Hin.
    + apply list_elem_of_lookup in Hin as (i & Hi).
      by apply drain_events_lookup in Hi.
Qed.

Lemma cycle_stored (self : MetricsExporter) (envelopes : list Envelope)
    (batches : list (list Envelope)) (w : W) :
  stored (events (dispatch self envelopes batches w))
  = omap (fun br : list Envelope * TransportStatusCode =>
            match storage self with
            | Some _ =>
                if is_RETRY br.2
                then Some (br.1, minimum_retry_interval (options self))
                else None
            | None => None
            end) (transmitted (events (dispatch self envelopes batches w))).
Proof.
  destruct (dispatch_events self envelopes batches w) as (flow & tr & Hl & ->).
  destruct (drain_events_silent self envelopes flow) as (_ & Ht & Hs).
  pose proof (loop_trace_stored _ _ _ _ Hl) as Hst.
  unfold stored, transmitted in *. by rewrite !omap_app, Ht, Hs, !app_nil_r.
Qed.

(** X12: the batches a cycle writes to the retry store are exactly the
    transmitted batches whose outcome was [RETRY], in the order of their
    transmission and once each, with the configured minimum retry
    interval; without a storage nothing is written. *)
Theorem stored_batches_are_retried_batches (self : MetricsExporter)
    (metrics : list Metric) (w : W) r :
  export_metrics self metrics w = Ok r ->
  stored (events r)
  = omap (fun br : list Envelope * TransportStatusCode =>
            match storage self with
            | Some _ =>
                if is_RETRY br.2
                then Some (br.1, minimum_retry_interval (options self))
                else None
            | None => None
            end) (transmitted (events r)).
Proof.
  intros Hr. apply export_metrics_inv in Hr as (envelopes & batches & _ & _ & ->).
  apply cycle_stored.
Qed.

(** X13: a cycle with nothing to send (no batch) calls neither the
    processors nor the transport nor the storage: it only drains the
    retry store, and does so exactly when the number of gathered
    envelopes is below the configured maximum batch size. *)
Theorem idle_cycle_only_drains (self : MetricsExporter) (metrics : list Metric)
    (envelopes : list Envelope) (w : W) r :
  gather_envelopes self metrics = Ok envelopes ->
  window envelopes (self_max_batch_size self) = Ok [] ->
  export_metrics self metrics w = Ok r ->
  events r
  = (if (Z.of_nat (length envelopes) <? max_batch_size (options self))%Z
     then [EvTransmitFromStorage]
     else []) /\
  world r
  = (if (Z.of_nat (length envelopes) <? max_batch_size (options self))%Z
     then _transmit_from_storage self w
     else w).
Proof.
  intros Hg Hw Hr. unfold export_metrics in Hr.
  rewrite Hg in Hr. simpl in Hr. rewrite Hw in Hr. simpl in Hr.
  injection Hr as <-. unfold dispatch, bind. simpl.
  by destruct (_ <? _)%Z.
Qed.

Lemma send_batches_transmits_processed (self : MetricsExporter)
    (f : list Envelope -> list Envelope) :
  (forall batch w, (apply_telemetry_processors self batch w).1 = f batch) ->
  forall batches w,
    (transmitted (events (send_batches self batches w))).*1
    = f <$> processed (events (send_batches self batches w)).
Proof.
  intros Hf. induction batches as [|batch rest IH]; intros w; [reflexivity|].
  simpl. unfold bind, send_batch, bind, call_apply_telemetry_processors,
    call_transmit, call_shutdown_statsbeat_metrics, call_storage_put, ret.
  pose proof (Hf batch w) as Hb.
  destruct (apply_telemetry_processors self batch w) as [batch' w1].
  simpl in Hb. subst batch'.
  destruct (_transmit self (f batch) w1) as [result w2].
  destruct (_is_stats_exporter self && is_STATSBEAT_SHUTDOWN result);
    [reflexivity|].
  destruct (storage self) as [st|]; [destruct (is_RETRY result)|].
  - specialize (IH (storage_put st (f batch)
                      (minimum_retry_interval (options self)) w2)).
    destruct (send_batches self rest _) as [[flow w3] tr].
    unfold events, transmitted, processed in *. simpl in *. by f_equal.
  - specialize (IH w2).
    destruct (send_batches self rest _) as [[flow w3] tr].
    unfold events, transmitted, processed in *. simpl in *. by f_equal.
  - specialize (IH w2).
    destruct (send_batches self rest _) as [[flow w3] tr].
    unfold events, transmitted, processed in *. simpl in *. by f_equal.
Qed.

(** X10: what a cycle transmits (and stores on a retry) is the output
    of the telemetry processors, not the batch as it was cut: when the
    processors map a batch to [f batch], the transmitted batches are the
    images under [f] of the batches handed to the processors, in order. *)
Theorem transmitted_batches_are_processor_outputs (self : MetricsExporter)
    (f : list Envelope -> list Envelope) (metrics : list Metric) (w : W) r :
  (forall batch w', (apply_telemetry_processors self batch w').1 = f batch) ->
  export_metrics self metrics w = Ok r ->
  (transmitted (events r)).*1 = f <$> processed (events r) /\
  (stored (events r)).*1 ⊆ f <$> processed (events r).
Proof.
  intros Hf Hr.
  apply export_metrics_inv in Hr as (envelopes & batches & _ & _ & ->).
  pose proof (cycle_stored self envelopes batches w) as Hst.
  assert (Ht : (transmitted (events (dispatch self envelopes batches w))).*1
               = f <$> processed (events (dispatch self envelopes batches w))).
  { rewrite dispatch_events_loop.
    destruct (drain_events_silent self envelopes
                (value (send_batches self batches w))) as (Hp & Ht & _).
    unfold transmitted, processed in *. rewrite !omap_app, Hp, Ht, !app_nil_r.
    by apply send_batches_transmits_processed. }
  split; [exact Ht|].
  rewrite <- Ht, Hst. intros b Hb.
  apply list_elem_of_fmap in Hb as ([b' p] & -> & Hb).
  apply list_elem_of_omap in Hb as ([b'' res] & Hin & Hsome).
  simpl in Hsome.
  destruct (storage self); [|discriminate].
  destruct (is_RETRY res); [|discriminate].
  injection Hsome as <- <-. simpl.
  apply list_elem_of_fmap. by exists (b'', res).
Qed.

(** * Further properties of shutdown and construction *)

(** X14: one [shutdown] releases each resource the exporter holds, once
    and in this order: first the exporter thread (closed, which flushes,
    on a primary exporter; cancelled on a statsbeat exporter; never
    both), then the storage; it makes no other call. *)
Theorem shutdown_releases_held_resources (self : MetricsExporter) (w : W) :
  (forall e,
      e ∈ events (shutdown self w) <->
      (exists t, exporter_thread self = Some t /\
                 e = if _is_stats self then EvThreadCancel t else EvThreadClose t) \/
      (exists st, storage self = Some st /\ e = EvStorageClose st)) /\
  NoDup (events (shutdown self w)) /\
  world (shutdown self w)
  = match storage self with
    | Some st => storage_close st
    | None => fun w' => w'
    end (match exporter_thread self with
         | Some t => if _is_stats self then thread_cancel t else thread_close t
         | None => fun w' => w'
         end w).
Proof.
  rewrite shutdown_events. split; [|split].
  - intros e. rewrite elem_of_app. split.
    + intros [Hin|Hin].
      * left. destruct (exporter_thread self) as [t|];
          [|by apply elem_of_nil in Hin].
        apply list_elem_of_singleton in Hin. by exists t.
      * right. destruct (storage self) as [st|];
          [|by apply elem_of_nil in Hin].
        apply list_elem_of_singleton in Hin. by exists st.
    + intros [(t & -> & ->)|(st & -> & ->)]; [left|right];
        apply list_elem_of_here.
  - destruct (exporter_thread self) as [t|], (storage self) as [st|],
      (_is_stats self); simpl; repeat constructor;
      try (by intros ?%elem_of_nil);
      by intros [=]%list_elem_of_singleton.
  - unfold shutdown, bind.
    destruct (exporter_thread self) as [t|], (storage self) as [st|],
      (_is_stats self); reflexivity.
Qed.

(** X16: an exporter as [__init__] returns it has no exporter thread, so
    that its [shutdown] only closes the storage, which exists exactly
    when local storage is enabled and is the one set up from the storage
    options. *)
Theorem shutdown_after_init (is_stats : bool) (opts : Options)
    (self : MetricsExporter) (w : W) :
  __init__ is_stats opts = Ok self ->
  events (shutdown self w)
  = if enable_local_storage opts
    then [EvStorageClose
            {| path := storage_path opts;
               max_size := storage_max_size opts;
               maintenance_period := storage_maintenance_period opts;
               retention_period := storage_retention_period opts;
               source := "MetricsExporter" |}]
    else [].
Proof.
  intros Hinit. rewrite shutdown_events. unfold __init__ in Hinit.
  destruct (validate_instrumentation_key _); simpl in Hinit; [|discriminate].
  destruct (max_batch_size opts <=? 0)%Z; [discriminate|].
  injection Hinit as <-. simpl. by destruct (enable_local_storage opts).
Qed.

(** * Further properties of the factory *)

Lemma env_truthy_false (environ : gmap string string) (name : string) :
  env_truthy environ name = false <->
  environ !! name = None \/ environ !! name = Some "".
Proof.
  unfold env_truthy. destruct (environ !! name) as [v|]; [|by split; auto].
  destruct (String.eqb_spec v "") as [->|Hne]; simpl; split; auto.
  - discriminate.
  - intros [?|[= ?]]; done.
Qed.

Lemma new_metrics_exporter_unfold (is_stats : bool) (opts : Options)
    (environ : gmap string string) (w : W) (built : MetricsExporter) :
  __init__ is_stats opts = Ok built ->
  options built = opts /\
  _is_stats built = is_stats /\
  self_max_batch_size built = max_batch_size opts /\
  exporter_thread built = None /\
  storage built
  = (if enable_local_storage opts
     then Some {| path := storage_path opts;
                  max_size := storage_max_size opts;
                  maintenance_period := storage_maintenance_period opts;
                  retention_period := storage_retention_period opts;
                  source := "MetricsExporter" |}
     else None).
Proof.
  unfold __init__. intros Hinit.
  destruct (validate_instrumentation_key _); simpl in Hinit; [|discriminate].
  destruct (max_batch_size opts <=? 0)%Z; [discriminate|].
  by injection Hinit as <-.
Qed.

(** What [new_metrics_exporter] returns on the exporter [built] by the
    constructor. *)
Lemma new_metrics_exporter_ok (is_stats : bool) (opts : Options)
    (environ : gmap string string) (w : W) (built : MetricsExporter) :
  __init__ is_stats opts = Ok built ->
  exists thread w1 exporter,
    get_exporter_thread
      (stats_producer
         :: (if enable_standard_metrics opts
             then [standard_metrics_producer]
             else []))
      built (opt_export_interval opts) w = (thread, w1) /\
    exporter_thread exporter = Some thread /\
    options exporter = opts /\
    _is_stats exporter = is_stats /\
    self_max_batch_size exporter = max_batch_size opts /\
    storage exporter = storage built /\
    new_metrics_exporter is_stats opts environ w
    = Ok (exporter,
          (if env_truthy environ "APPLICATIONINSIGHTS_STATSBEAT_DISABLED_ALL"
           then w1
           else collect_statsbeat_metrics opts w1),
          EvGetExporterThread
            (stats_producer
               :: (if enable_standard_metrics opts
                   then [standard_metrics_producer]
                   else []))
            built (opt_export_interval opts)
            :: (if env_truthy environ "APPLICATIONINSIGHTS_STATSBEAT_DISABLED_ALL"
                then []
                else [EvCollectStatsbeat opts])).
Proof.
  intros Hinit.
  destruct (new_metrics_exporter_unfold is_stats opts environ w built Hinit)
    as (Hopts & Hstats & Hsize & Hthread & Hstorage).
  unfold new_metrics_exporter. rewrite Hinit. simpl. rewrite Hopts.
  destruct (enable_standard_metrics opts); simpl;
    destruct (get_exporter_thread _ built (opt_export_interval opts) w)
      as [thread w1];
    destruct (env_truthy environ "APPLICATIONINSIGHTS_STATSBEAT_DISABLED_ALL");
    simpl; eexists thread, w1, _; (split; [reflexivity|]);
    (split; [|split; [|split; [|split; [|split; [|reflexivity]]]]]);
    simpl; done.
Qed.

(** X15: [new_metrics_exporter] fails exactly when the constructor does,
    with the same error.  Otherwise it starts one exporter thread, over
    the stats producer followed by the standard-metrics producer when
    the options enable standard metrics, with the export interval of the
    options, and returns the constructed exporter with that thread
    attached; after that it collects statsbeat metrics for the options,
    exactly when the variable APPLICATIONINSIGHTS_STATSBEAT_DISABLED_ALL
    is not set or is set to the empty string. *)
Theorem new_metrics_exporter_starts_thread (is_stats : bool) (opts : Options)
    (environ : gmap string string) (w : W) :
  (forall e,
      new_metrics_exporter is_stats opts environ w = Err e <->
      __init__ is_stats opts = Err e) /\
  (forall exporter w' evs,
      new_metrics_exporter is_stats opts environ w = Ok (exporter, w', evs) ->
      exists built thread w1,
        __init__ is_stats opts = Ok built /\
        get_exporter_thread
          (stats_producer
             :: (if enable_standard_metrics opts
                 then [standard_metrics_producer]
                 else []))
          built (opt_export_interval opts) w = (thread, w1) /\
        exporter_thread exporter = Some thread /\
        options exporter = opts /\
        _is_stats exporter = is_stats /\
        self_max_batch_size exporter = max_batch_size opts /\
        storage exporter = storage built /\
        ((environ !! "APPLICATIONINSIGHTS_STATSBEAT_DISABLED_ALL" = None \/
          environ !! "APPLICATIONINSIGHTS_STATSBEAT_DISABLED_ALL" = Some "") ->
         evs = [EvGetExporterThread
                  (stats_producer
                     :: (if enable_standard_metrics opts
                         then [standard_metrics_producer]
                         else []))
                  built (opt_export_interval opts);
                EvCollectStatsbeat opts] /\
         w' = collect_statsbeat_metrics opts w1) /\
        (~ (environ !! "APPLICATIONINSIGHTS_STATSBEAT_DISABLED_ALL" = None \/
            environ !! "APPLICATIONINSIGHTS_STATSBEAT_DISABLED_ALL" = Some "") ->
         evs = [EvGetExporterThread
                  (stats_producer
                     :: (if enable_standard_metrics opts
                         then [standard_metrics_producer]
                         else []))
                  built (opt_export_interval opts)] /\
         w' = w1)).
Proof.
  destruct (__init__ is_stats opts) as [built|err] eqn:Hinit.
  - destruct (new_metrics_exporter_ok is_stats opts environ w built Hinit)
      as (thread & w1 & exporter & Hget & Hthread & Hopts & Hstats & Hsize
          & Hstorage & Hnew).
    rewrite Hnew.
    pose proof (env_truthy_false environ
                  "APPLICATIONINSIGHTS_STATSBEAT_DISABLED_ALL") as Henv.
    split; [intros e; split; discriminate|].
    intros exporter' w' evs [= <- <- <-].
    exists built, thread, w1.
    split; [done|]. split; [done|]. split; [done|]. split; [done|].
    split; [done|]. split; [done|]. split; [done|]. split.
    + intros Hc. apply Henv in Hc. by rewrite Hc.
    + intros Hc. destruct (env_truthy environ _); [done|].
      exfalso. apply Hc. by apply Henv.
  - unfold new_metrics_exporter. rewrite Hinit. simpl. split.
    + intros e. split; intros [= ->]; reflexivity.
    + intros exporter w' evs [=].
Qed.

(** X17: shutting down an exporter that [new_metrics_exporter] returned
    releases the thread the factory started (it closes the thread,
    which flushes, unless the exporter was asked for as a statsbeat
    exporter, whose thread it cancels) and then closes the storage, if
    the options enabled local storage. *)
Theorem shutdown_after_new_metrics_exporter (is_stats : bool) (opts : Options)
    (environ : gmap string string) (w : W) (exporter : MetricsExporter)
    (w' : W) (evs : list SetupEvent) (w2 : W) :
  new_metrics_exporter is_stats opts environ w = Ok (exporter, w', evs) ->
  exists built thread,
    __init__ is_stats opts = Ok built /\
    (get_exporter_thread
       (stats_producer
          :: (if enable_standard_metrics opts
              then [standard_metrics_producer]
              else []))
       built (opt_export_interval opts) w).1 = thread /\
    events (shutdown exporter w2)
    = (if is_stats then EvThreadCancel thread else EvThreadClose thread)
        :: (if enable_local_storage opts
            then [EvStorageClose
                    {| path := storage_path opts;
                       max_size := storage_max_size opts;
                       maintenance_period := storage_maintenance_period opts;
                       retention_period := storage_retention_period opts;
                       source := "MetricsExporter" |}]
            else []).
Proof.
  intros Hr.
  destruct (__init__ is_stats opts) as [built|err] eqn:Hinit;
    [|unfold new_metrics_exporter in Hr; rewrite Hinit in Hr; discriminate].
  destruct (new_metrics_exporter_ok is_stats opts environ w built Hinit)
    as (thread & w1 & exporter' & Hget & Hthread & _ & Hstats & _
        & Hstorage & Hnew).
  rewrite Hnew in Hr. injection Hr as <- _ _.
  exists built, thread. split; [done|]. split; [by rewrite Hget|].
  destruct (new_metrics_exporter_unfold is_stats opts environ w built Hinit)
    as (_ & _ & _ & _ & Hbuilt).
  rewrite shutdown_events, Hthread, Hstorage, Hbuilt, Hstats. simpl.
  by destruct (enable_local_storage opts).
Qed.

End Exporter.

(** * Concrete instances

    Numbers and time stamps are integers, the world counts the
    transmissions made so far, and the transport answers from a script:
    the [n]-th transmission returns the [n]-th status of the script
    ([SUCCESS] once the script is used up).  The other collaborators
    leave the world alone. *)

Module Sample.

Local Open Scope Z_scope.

Definition iso (t : Z) : string :=
  if (t =? 0)%Z then "1970-01-01T00:00:00" else "1970-01-01T00:00:01".

Definition CD : Z := 6.

Definition ctx : gmap string string := ∅.

Definition Exp : Type := @MetricsExporter Z unit nat.

Definition process (_ : Exp) (batch : list (@Envelope Z)) (w : nat)
  : list (@Envelope Z) * nat := (batch, w).

Definition transmit (script : list TransportStatusCode) (_ : Exp)
    (_ : list (@Envelope Z)) (w : nat) : TransportStatusCode * nat :=
  (nth w script SUCCESS, S w).

Definition is_stats_exporter (self : Exp) : bool := _is_stats self.

Definition drain (_ : Exp) (w : nat) : nat := w.

Definition quiet_put (_ : LocalFileStorage) (_ : list (@Envelope Z)) (_ : Z)
    (w : nat) : nat := w.

Definition quiet_close {H : Type} (_ : H) (w : nat) : nat := w.

Definition well_formed (k : string) : bool := Nat.eqb (String.length k) 36%nat.

Definition opts (M : Z) (local_storage : bool) : @Options Z :=
  {| instrumentation_key := Some "12345678-1234-5678-abcd-12345678abcd";
     max_batch_size := M;
     opt_export_interval := 15;
     enable_local_storage := local_storage;
     storage_path := "/tmp/opencensus";
     storage_max_size := 52428800;
     storage_maintenance_period := 60;
     storage_retention_period := 604800;
     minimum_retry_interval := 60;
     enable_standard_metrics := true |}.

Definition files : LocalFileStorage :=
  {| path := "/tmp/opencensus";
     max_size := 52428800;
     maintenance_period := 60;
     retention_period := 604800;
     source := "MetricsExporter" |}.

(** The exporter [__init__] builds from [opts M local_storage], with an
    exporter thread attached when [thread] names one. *)
Definition exporter (is_stats : bool) (M : Z) (local_storage : bool)
    (thread : option nat) : Exp :=
  {| options := opts M local_storage;
     _is_stats := is_stats;
     export_interval := 15;
     self_max_batch_size := M;
     _telemetry_processors := [];
     storage := if local_storage then Some files else None;
     exporter_thread := thread;
     _consecutive_redirects := 0 |}.

Definition point (v t : Z) : @Point Z Z :=
  {| p_value := HasValue v; timestamp := t |}.

(** A point whose value is a distribution, read at time [t]. *)
Definition distribution_point (t : Z) : @Point Z Z :=
  {| p_value := NoValue; timestamp := t |}.

(** A series with one label value and the given points. *)
Definition series (label : option string) (ps : list (@Point Z Z))
  : @TimeSeries Z Z :=
  {| label_values := [ {| lv_value := label |} ]; points := ps |}.

(** A metric of descriptor type [ty] with one label key. *)
Definition metric (ty : Z) (tss : list (@TimeSeries Z Z)) : @Metric Z Z :=
  {| descriptor := {| md_name := "requests";
                      md_type := ty;
                      label_keys := [ {| key := "host" |} ] |};
     time_series := tss |}.

(** Five series of one point each. *)
Definition five_series : @Metric Z Z :=
  metric 4 [ series (Some "a") [point 1 0];
             series (Some "b") [point 2 0];
             series None [point 3 1];
             series (Some "d") [point 4 1];
             series (Some "e") [point 5 1] ].

(** The envelope of a point of value [v] at time [t] on host [label],
    as the primary exporter writes it. *)
Definition envelope (v t : Z) (label : string) : @Envelope Z :=
  {| iKey := Some "12345678-1234-5678-abcd-12345678abcd";
     tags := ∅;
     time := iso t;
     env_name := "Microsoft.ApplicationInsights.Metric";
     data := {| baseData := {| metrics := [ {| dp_ns := "requests";
                                               dp_name := "requests";
                                               dp_value := v |} ];
                               properties := {[ "host" := label ]} |};
                baseType := "MetricData" |} |}.

Definition five_envelopes : list (@Envelope Z) :=
  [ envelope 1 0 "a"; envelope 2 0 "b"; envelope 3 1 "null";
    envelope 4 1 "d"; envelope 5 1 "e" ].

(** The same envelopes as the statsbeat exporter names them. *)
Definition convert_stats (es : list (@Envelope Z)) : list (@Envelope Z) :=
  (fun e => {| iKey := iKey e; tags := tags e; time := time e;
               env_name := "Statsbeat"; data := data e |}) <$> es.

Definition convert (self : Exp) (m : @Metric Z Z) : result (list (@Envelope Z)) :=
  metric_to_envelopes iso CD ctx self m.

Definition gather (self : Exp) (ms : list (@Metric Z Z))
  : result (list (@Envelope Z)) :=
  gather_envelopes iso CD ctx self ms.

Definition export (script : list TransportStatusCode) (self : Exp)
    (ms : list (@Metric Z Z)) (w : nat)
  : result (unit * nat * list (@Event Z nat)) :=
  export_metrics iso CD ctx process (transmit script) is_stats_exporter
    drain (fun w => w) quiet_put self ms w.

Definition stop (self : Exp) (w : nat) : unit * nat * list (@Event Z nat) :=
  shutdown quiet_close quiet_close quiet_close self w.

(** The factory over producers named by numbers: the thread it starts
    is named by the number of producers it runs over. *)
Definition start_thread (producers : list nat) (_ : Exp) (_ : Z) (w : nat)
  : nat * nat := (length producers, w).

Definition collect (_ : @Options Z) (w : nat) : nat := w.

Definition factory (is_stats : bool) (o : @Options Z)
    (environ : gmap string string) (w : nat)
  : result (Exp * nat * list (@SetupEvent Z unit nat nat)) :=
  new_metrics_exporter well_formed 0%nat 1%nat start_thread collect
    is_stats o environ w.

(** A descriptor that names the label key "host" twice. *)
Definition twice_host : MetricDescriptor :=
  {| md_name := "requests";
     md_type := 4;
     label_keys := [ {| key := "host" |}; {| key := "host" |} ] |}.

Definition two_labels (a b : option string) : @TimeSeries Z Z :=
  {| label_values := [ {| lv_value := a |}; {| lv_value := b |} ];
     points := [point 1 0] |}.

End Sample.

(** * The theorems at concrete inputs *)

Import Sample.

(** 250 envelopes in batches of 100 come out as batches of 100, 100 and
    50, which make up the input again. *)
Example window_250_by_100 :
  exists batches,
    window (seq 0 250) 100 = Ok batches /\
    length <$> batches = [100; 100; 50] /\
    concat batches = seq 0 250.
Proof. eexists. split; [reflexivity|]. split; vm_compute; reflexivity. Qed.



(** On an exporter with a thread and a storage, the second [shutdown]
    closes both again. *)
Lemma shutdown_twice_counterexample :
  events (stop (exporter false 2 true (Some 7))
            (world (stop (exporter false 2 true (Some 7)) 0)))
  = [EvThreadClose 7; EvStorageClose files] /\
  events (stop (exporter false 2 true (Some 7))
            (world (stop (exporter false 2 true (Some 7)) 0)))
  <> [].
Proof. split; [reflexivity|discriminate]. Qed.

Lemma batch_stored_iff_storage_and_retry_witness :
  exists r,
    export [SUCCESS; RETRY; NON_RETRYABLE] (exporter false 2 true None)
      [five_series] 0 = Ok r /\
    events r !! 3 = Some (EvTransmit [envelope 3 1 "null"; envelope 4 1 "d"] RETRY) /\
    events r !! 4
    = Some (EvStoragePut files [envelope 3 1 "null"; envelope 4 1 "d"] 60) /\
    events r !! 6 = Some (EvTransmit [envelope 5 1 "e"] NON_RETRYABLE) /\
    events r !! 7 = None.
Proof.
  eexists. split; [reflexivity|].
  assert (H3 : events (dispatch process
                         (transmit [SUCCESS; RETRY; NON_RETRYABLE])
                         is_stats_exporter drain (fun w => w) quiet_put
                         (exporter false 2 true None) five_envelopes
                         [[envelope 1 0 "a"; envelope 2 0 "b"];
                          [envelope 3 1 "null"; envelope 4 1 "d"];
                          [envelope 5 1 "e"]] 0) !! 3
               = Some (EvTransmit [envelope 3 1 "null"; envelope 4 1 "d"] RETRY))
    by (vm_compute; reflexivity).
  split; [exact H3|]. split.
  - apply (proj1 (batch_stored_iff_storage_and_retry iso CD ctx process
                    (transmit [SUCCESS; RETRY; NON_RETRYABLE]) is_stats_exporter
                    drain (fun w => w) quiet_put
                    (exporter false 2 true None) [five_series] 0 _
                    ltac:(vm_compute; reflexivity))).
    + exact H3.
    + reflexivity.
  - split; vm_compute; reflexivity.
Defined.

Lemma configuration_errors_fail_fast_witness :
  (exists msg,
      @__init__ Z unit nat well_formed false (opts 0 true) = Err (ValueError msg)) /\
  (exists self,
      @__init__ Z unit nat well_formed false (opts 100 true) = Ok self /\
      forall msg,
        export [RETRY] self [five_series] 0 <> Err (ValueError msg)).
Proof.
  split.
  - apply (proj1 (proj2 (configuration_errors_fail_fast iso CD ctx process
                           (transmit [RETRY]) is_stats_exporter drain
                           (fun w => w) quiet_put well_formed false
                           (opts 0 true)))).
    simpl. lia.
  - exists (exporter false 100 true None). split; [reflexivity|].
    apply (proj2 (proj2 (proj2 (configuration_errors_fail_fast iso CD ctx
                                  process (transmit [RETRY]) is_stats_exporter
                                  drain (fun w => w) quiet_put well_formed false
                                  (opts 100 true))))
             (exporter false 100 true None) eq_refl).
Defined.

Lemma histogram_yields_no_envelopes_witness :
  md_type (descriptor (metric CD [series None []])) = CD /\
  convert (exporter false 2 true None) (metric CD [series None []]) = Ok [].
Proof.
  split; [reflexivity|].
  apply (histogram_yields_no_envelopes iso CD ctx). reflexivity.
Defined.



Lemma create_properties_pairs_by_index_witness :
  length (label_keys (descriptor five_series))
  <= length (label_values (series None [point 3 1])) /\
  exists props : gmap string string,
    _create_properties (series None [point 3 1]) (descriptor five_series)
    = Ok props /\
    props !! "host" = Some "null".
Proof.
  assert (H : length (label_keys (descriptor five_series))
              <= length (label_values (series None [point 3 1])))
    by (simpl; lia).
  split; [exact H|].
  destruct (create_properties_pairs_by_index (series None [point 3 1])
              (descriptor five_series) H) as (props & Hok & _ & _ & Hlk).
  exists props. split; [exact Hok|].
  apply (Hlk 0 {| key := "host" |} {| lv_value := None |});
    [reflexivity|reflexivity|].
  intros [|j] k' Hj Hk'; [lia|discriminate].
Defined.

(** With the key "host" named twice, the value at index 0 is lost. *)
Lemma create_properties_pairs_by_index_counterexample :
  length (label_keys twice_host)
  <= length (label_values (two_labels (Some "a") None)) /\
  label_keys twice_host !! 0 = Some {| key := "host" |} /\
  label_values (two_labels (Some "a") None) !! 0
  = Some {| lv_value := Some "a" |} /\
  _create_properties (two_labels (Some "a") None) twice_host
  = Ok {[ "host" := "null" ]} /\
  ({[ "host" := "null" ]} : gmap string string) !! "host" <> Some "a".
Proof.
  split; [simpl; lia|]. split; [reflexivity|]. split; [reflexivity|].
  split; [vm_compute; reflexivity|].
  vm_compute. discriminate.
Qed.

Lemma statsbeat_shutdown_ends_cycle_witness :
  exists r,
    is_stats_exporter (exporter true 2 true None) = true /\
    export [RETRY; STATSBEAT_SHUTDOWN] (exporter true 2 true None)
      [five_series] 0 = Ok r /\
    events r !! 4
    = Some (EvTransmit (convert_stats [envelope 3 1 "null"; envelope 4 1 "d"])
              STATSBEAT_SHUTDOWN) /\
    events r !! 5 = Some EvShutdownStatsbeat /\
    length (events r) = 6 /\
    drains (events r) = 0.
Proof.
  eexists.
  assert (H1 : is_stats_exporter (exporter true 2 true None) = true)
    by reflexivity.
  assert (H2 : export [RETRY; STATSBEAT_SHUTDOWN] (exporter true 2 true None)
                 [five_series] 0
               = Ok (dispatch process (transmit [RETRY; STATSBEAT_SHUTDOWN])
                       is_stats_exporter drain (fun w => w) quiet_put
                       (exporter true 2 true None)
                       (convert_stats five_envelopes)
                       [convert_stats [envelope 1 0 "a"; envelope 2 0 "b"];
                        convert_stats [envelope 3 1 "null"; envelope 4 1 "d"];
                        convert_stats [envelope 5 1 "e"]] 0))
    by (vm_compute; reflexivity).
  assert (H3 : events (dispatch process (transmit [RETRY; STATSBEAT_SHUTDOWN])
                         is_stats_exporter drain (fun w => w) quiet_put
                         (exporter true 2 true None)
                         (convert_stats five_envelopes)
                         [convert_stats [envelope 1 0 "a"; envelope 2 0 "b"];
                          convert_stats [envelope 3 1 "null"; envelope 4 1 "d"];
                          convert_stats [envelope 5 1 "e"]] 0) !! 4
               = Some (EvTransmit
                         (convert_stats [envelope 3 1 "null"; envelope 4 1 "d"])
                         STATSBEAT_SHUTDOWN))
    by (vm_compute; reflexivity).
  split; [exact H1|]. split; [exact H2|]. split; [exact H3|].
  destruct (statsbeat_shutdown_ends_cycle iso CD ctx process
              (transmit [RETRY; STATSBEAT_SHUTDOWN]) is_stats_exporter drain
              (fun w => w) quiet_put (exporter true 2 true None) [five_series]
              0 _ H1 H2 4 _ H3) as (Hnext & Hlen & _ & _ & Hd).
  split; [exact Hnext|]. split; [exact Hlen|]. exact Hd.
Defined.

Lemma envelope_time_is_measurement_time_witness :
  convert (exporter false 2 true None) five_series = Ok five_envelopes /\
  exists ts p rest,
    time_series five_series !! 2 = Some ts /\
    points ts = p :: rest /\
    time (envelope 3 1 "null") = iso (timestamp p).
Proof.
  assert (H : convert (exporter false 2 true None) five_series
              = Ok five_envelopes) by (vm_compute; reflexivity).
  split; [exact H|].
  apply (envelope_time_is_measurement_time iso CD ctx
           (exporter false 2 true None) five_series five_envelopes H 2
           (envelope 3 1 "null")).
  reflexivity.
Defined.

(** A series of two points yields one envelope, made from the first. *)
Lemma one_envelope_per_series_from_first_point_witness :
  md_type (descriptor (metric 4 [series (Some "a") [point 1 0; point 9 1]]))
  <> CD /\
  convert (exporter false 2 true None)
    (metric 4 [series (Some "a") [point 1 0; point 9 1]])
  = Ok [envelope 1 0 "a"] /\
  convert (exporter false 2 true None)
    (metric 4 [series (Some "a") [point 1 0]])
  = Ok [envelope 1 0 "a"] /\
  convert (exporter false 2 true None)
    (metric 4 [series (Some "a") [point 1 0]; series (Some "b") []])
  = Err IndexError.
Proof.
  assert (H : forall tss, md_type (descriptor (metric 4 tss)) <> CD)
    by (intros tss; simpl; unfold CD; lia).
  assert (Hm : convert (exporter false 2 true None)
                 (metric 4 [series (Some "a") [point 1 0; point 9 1]])
               = Ok [envelope 1 0 "a"]) by (vm_compute; reflexivity).
  split; [apply H|]. split; [exact Hm|]. split.
  - exact (proj2 (proj2 (proj1 (one_envelope_per_series_from_first_point
                                  iso CD ctx (exporter false 2 true None)
                                  (metric 4 [series (Some "a")
                                               [point 1 0; point 9 1]])
                                  (H _)) _ Hm))).
  - apply (proj2 (proj2 (one_envelope_per_series_from_first_point
                           iso CD ctx (exporter false 2 true None)
                           (metric 4 [series (Some "a") [point 1 0];
                                      series (Some "b") []])
                           (H _)))).
    + intros ts p Hts Hp.
      apply elem_of_cons in Hts as [->|Hts].
      * apply list_elem_of_singleton in Hp as ->. by exists 1%Z.
      * apply list_elem_of_singleton in Hts as ->. by apply elem_of_nil in Hp.
    + exists (series (Some "b") []). split; [|reflexivity].
      apply list_elem_of_further, list_elem_of_here.
Defined.

(** A gauge distribution (type 3) with one series of one point: the
    point list is not empty, and yet no envelope is produced. *)
Lemma one_envelope_per_series_counterexample :
  md_type (descriptor (metric 3 [series (Some "a") [distribution_point 0]]))
  <> CD /\
  points (series (Some "a") [distribution_point 0]) <> [] /\
  convert (exporter false 2 true None)
    (metric 3 [series (Some "a") [distribution_point 0]])
  = Err AttributeError /\
  ~ (exists envelopes,
        convert (exporter false 2 true None)
          (metric 3 [series (Some "a") [distribution_point 0]])
        = Ok envelopes /\
        length envelopes = 1).
Proof.
  split; [simpl; unfold CD; lia|]. split; [discriminate|].
  split; [reflexivity|].
  intros (envelopes & H & _). discriminate.
Qed.

(** * The further properties at concrete inputs *)

Lemma create_properties_reads_prefix_witness :
  take (length (label_keys (descriptor five_series)))
    (label_values (two_labels (Some "a") (Some "unused")))
  = take (length (label_keys (descriptor five_series)))
      (label_values (series (Some "a") [])) /\
  _create_properties (two_labels (Some "a") (Some "unused"))
    (descriptor five_series)
  = _create_properties (series (Some "a") []) (descriptor five_series).
Proof.
  split; [reflexivity|].
  apply create_properties_reads_prefix. reflexivity.
Defined.

(** With the key "host" named twice, the second label value wins. *)
Lemma create_properties_lookup_witness :
  _create_properties (two_labels (Some "a") None) twice_host
  = Ok {[ "host" := "null" ]} /\
  ({[ "host" := "null" ]} : gmap string string) !! "host" = Some "null" /\
  ({[ "host" := "null" ]} : gmap string string) !! "region" = None.
Proof.
  assert (H : _create_properties (two_labels (Some "a") None) twice_host
              = Ok {[ "host" := "null" ]}) by (vm_compute; reflexivity).
  split; [exact H|]. split.
  - rewrite (create_properties_lookup _ _ _ H "host"). reflexivity.
  - rewrite (create_properties_lookup _ _ _ H "region"). reflexivity.
Defined.

Lemma envelope_header_witness :
  convert (exporter true 2 true None) five_series
  = Ok (convert_stats five_envelopes) /\
  env_name (envelope 3 1 "null") = "Microsoft.ApplicationInsights.Metric" /\
  forall e, e ∈ convert_stats five_envelopes -> env_name e = "Statsbeat".
Proof.
  assert (H : convert (exporter true 2 true None) five_series
              = Ok (convert_stats five_envelopes)) by (vm_compute; reflexivity).
  split; [exact H|]. split; [reflexivity|].
  intros e He.
  exact (proj1 (proj2 (proj2 (envelope_header iso CD ctx
                                (exporter true 2 true None) five_series
                                (convert_stats five_envelopes) H e He)))).
Defined.

Lemma envelope_properties_witness :
  convert (exporter false 2 true None) five_series = Ok five_envelopes /\
  _create_properties (series None [point 3 1]) (descriptor five_series)
  = Ok (properties (baseData (data (envelope 3 1 "null")))) /\
  dom (properties (baseData (data (envelope 3 1 "null"))))
  = list_to_set (key <$> label_keys (descriptor five_series)).
Proof.
  assert (H : convert (exporter false 2 true None) five_series
              = Ok five_envelopes) by (vm_compute; reflexivity).
  split; [exact H|].
  apply (envelope_properties iso CD ctx (exporter false 2 true None)
           five_series five_envelopes H 2 (series None [point 3 1])
           (envelope 3 1 "null")); reflexivity.
Defined.

(** A series without points in the second metric stops the export of
    both metrics. *)
Lemma export_metrics_raises_on_unconvertible_metric_witness :
  metric 4 [series (Some "a") []]
    ∈ [five_series; metric 4 [series (Some "a") []]] /\
  export [SUCCESS] (exporter false 2 true None)
    [five_series; metric 4 [series (Some "a") []]] 0
  = Err IndexError /\
  exists err,
    export [SUCCESS] (exporter false 2 true None)
      [five_series; metric 4 [series (Some "a") []]] 0
    = Err err /\
    (err = IndexError \/ err = AttributeError).
Proof.
  assert (Hin : metric 4 [series (Some "a") []]
                  ∈ [five_series; metric 4 [series (Some "a") []]])
    by (apply list_elem_of_further, list_elem_of_here).
  split; [exact Hin|].
  assert (Hty : md_type (descriptor (metric 4 [series (Some "a") []])) <> CD)
    by (simpl; unfold CD; lia).
  assert (Hts : series (Some "a") [] ∈ time_series (metric 4 [series (Some "a") []]))
    by apply list_elem_of_here.
  destruct (export_metrics_raises_on_unconvertible_metric iso CD ctx process
              (transmit [SUCCESS]) is_stats_exporter drain (fun w => w)
              quiet_put (exporter false 2 true None)
              [five_series; metric 4 [series (Some "a") []]] 0
              (metric 4 [series (Some "a") []]) (series (Some "a") []) Hin
              Hty Hts (or_introl eq_refl)) as (err & Herr & Hkind & _).
  split; [vm_compute; reflexivity|].
  exists err. split; [exact Herr|exact Hkind].
Defined.

(** The primary exporter goes on after a shutdown status. *)
Lemma primary_exporter_dispatches_every_batch_witness :
  exists r,
    is_stats_exporter (exporter false 2 true None) = false /\
    export [STATSBEAT_SHUTDOWN; RETRY] (exporter false 2 true None)
      [five_series] 0 = Ok r /\
    processed (events r)
    = [[envelope 1 0 "a"; envelope 2 0 "b"];
       [envelope 3 1 "null"; envelope 4 1 "d"];
       [envelope 5 1 "e"]] /\
    length (transmitted (events r)) = 3.
Proof.
  eexists.
  assert (H1 : is_stats_exporter (exporter false 2 true None) = false)
    by reflexivity.
  assert (H2 : gather (exporter false 2 true None) [five_series]
               = Ok five_envelopes) by (vm_compute; reflexivity).
  assert (H3 : window five_envelopes
                 (self_max_batch_size (exporter false 2 true None))
               = Ok [[envelope 1 0 "a"; envelope 2 0 "b"];
                     [envelope 3 1 "null"; envelope 4 1 "d"];
                     [envelope 5 1 "e"]]) by reflexivity.
  assert (H4 : export [STATSBEAT_SHUTDOWN; RETRY] (exporter false 2 true None)
                 [five_series] 0
               = Ok (dispatch process (transmit [STATSBEAT_SHUTDOWN; RETRY])
                       is_stats_exporter drain (fun w => w) quiet_put
                       (exporter false 2 true None) five_envelopes
                       [[envelope 1 0 "a"; envelope 2 0 "b"];
                        [envelope 3 1 "null"; envelope 4 1 "d"];
                        [envelope 5 1 "e"]] 0))
    by (vm_compute; reflexivity).
  split; [exact H1|]. split; [exact H4|].
  destruct (primary_exporter_dispatches_every_batch iso CD ctx process
              (transmit [STATSBEAT_SHUTDOWN; RETRY]) is_stats_exporter drain
              (fun w => w) quiet_put (exporter false 2 true None)
              [five_series] five_envelopes _ 0 _ H1 H2 H3 H4) as (Hp & Hn & _).
  split; [exact Hp|exact Hn].
Defined.

Lemma stored_batches_are_retried_batches_witness :
  exists r,
    export [SUCCESS; RETRY; NON_RETRYABLE] (exporter false 2 true None)
      [five_series] 0 = Ok r /\
    transmitted (events r)
    = [([envelope 1 0 "a"; envelope 2 0 "b"], SUCCESS);
       ([envelope 3 1 "null"; envelope 4 1 "d"], RETRY);
       ([envelope 5 1 "e"], NON_RETRYABLE)] /\
    stored (events r) = [([envelope 3 1 "null"; envelope 4 1 "d"], 60%Z)].
Proof.
  eexists.
  assert (H : export [SUCCESS; RETRY; NON_RETRYABLE] (exporter false 2 true None)
                [five_series] 0
              = Ok (dispatch process (transmit [SUCCESS; RETRY; NON_RETRYABLE])
                      is_stats_exporter drain (fun w => w) quiet_put
                      (exporter false 2 true None) five_envelopes
                      [[envelope 1 0 "a"; envelope 2 0 "b"];
                       [envelope 3 1 "null"; envelope 4 1 "d"];
                       [envelope 5 1 "e"]] 0))
    by (vm_compute; reflexivity).
  assert (Ht : transmitted
                 (events (dispatch process
                            (transmit [SUCCESS; RETRY; NON_RETRYABLE])
                            is_stats_exporter drain (fun w => w) quiet_put
                            (exporter false 2 true None) five_envelopes
                            [[envelope 1 0 "a"; envelope 2 0 "b"];
                             [envelope 3 1 "null"; envelope 4 1 "d"];
                             [envelope 5 1 "e"]] 0))
               = [([envelope 1 0 "a"; envelope 2 0 "b"], SUCCESS);
                  ([envelope 3 1 "null"; envelope 4 1 "d"], RETRY);
                  ([envelope 5 1 "e"], NON_RETRYABLE)])
    by (vm_compute; reflexivity).
  split; [exact H|]. split; [exact Ht|].
  rewrite (stored_batches_are_retried_batches iso CD ctx process
             (transmit [SUCCESS; RETRY; NON_RETRYABLE]) is_stats_exporter
             drain (fun w => w) quiet_put (exporter false 2 true None)
             [five_series] 0 _ H).
  rewrite Ht. reflexivity.
Defined.

(** A cycle over a histogram alone only drains the retry store. *)
Lemma idle_cycle_only_drains_witness :
  exists r,
    gather (exporter false 2 true None) [metric CD [series None []]] = Ok [] /\
    export [RETRY] (exporter false 2 true None)
      [metric CD [series None []]] 0 = Ok r /\
    events r = [EvTransmitFromStorage].
Proof.
  eexists.
  assert (H1 : gather (exporter false 2 true None) [metric CD [series None []]]
               = Ok []) by reflexivity.
  assert (H2 : window (@nil (@Envelope Z))
                 (self_max_batch_size (exporter false 2 true None)) = Ok [])
    by reflexivity.
  assert (H3 : export [RETRY] (exporter false 2 true None)
                 [metric CD [series None []]] 0
               = Ok (dispatch process (transmit [RETRY]) is_stats_exporter
                       drain (fun w => w) quiet_put
                       (exporter false 2 true None) [] [] 0))
    by reflexivity.
  split; [exact H1|]. split; [exact H3|].
  exact (proj1 (idle_cycle_only_drains iso CD ctx process (transmit [RETRY])
                  is_stats_exporter drain (fun w => w) quiet_put
                  (exporter false 2 true None) [metric CD [series None []]]
                  [] 0 _ H1 H2 H3)).
Defined.

Lemma transmitted_batches_are_processor_outputs_witness :
  exists r,
    export [SUCCESS; RETRY] (exporter false 2 true None) [five_series] 0
    = Ok r /\
    (transmitted (events r)).*1 = processed (events r).
Proof.
  eexists.
  assert (H : export [SUCCESS; RETRY] (exporter false 2 true None)
                [five_series] 0
              = Ok (dispatch process (transmit [SUCCESS; RETRY])
                      is_stats_exporter drain (fun w => w) quiet_put
                      (exporter false 2 true None) five_envelopes
                      [[envelope 1 0 "a"; envelope 2 0 "b"];
                       [envelope 3 1 "null"; envelope 4 1 "d"];
                       [envelope 5 1 "e"]] 0))
    by (vm_compute; reflexivity).
  split; [exact H|].
  rewrite (proj1 (transmitted_batches_are_processor_outputs iso CD ctx process
                    (transmit [SUCCESS; RETRY]) is_stats_exporter drain
                    (fun w => w) quiet_put (exporter false 2 true None)
                    (fun b => b) [five_series] 0 _
                    (fun batch w' => eq_refl) H)).
  apply list_fmap_id.
Defined.

Lemma shutdown_after_init_witness :
  @__init__ Z unit nat well_formed false (opts 100 true)
  = Ok (exporter false 100 true None) /\
  events (stop (exporter false 100 true None) 0) = [EvStorageClose files].
Proof.
  assert (H : @__init__ Z unit nat well_formed false (opts 100 true)
              = Ok (exporter false 100 true None)) by reflexivity.
  split; [exact H|].
  exact (shutdown_after_init quiet_close quiet_close quiet_close well_formed
           false (opts 100 true) (exporter false 100 true None) 0 H).
Defined.

(** The factory starts thread 2 (two producers); shutdown closes it and
    then the storage. *)
Lemma shutdown_after_new_metrics_exporter_witness :
  factory false (opts 100 true) ∅ 0
  = Ok (exporter false 100 true (Some 2), 0,
        [EvGetExporterThread [0; 1] (exporter false 100 true None) 15%Z;
         EvCollectStatsbeat (opts 100 true)]) /\
  events (stop (exporter false 100 true (Some 2)) 0)
  = [EvThreadClose 2; EvStorageClose files].
Proof.
  assert (H : factory false (opts 100 true) ∅ 0
              = Ok (exporter false 100 true (Some 2), 0,
                    [EvGetExporterThread [0; 1] (exporter false 100 true None)
                       15%Z;
                     EvCollectStatsbeat (opts 100 true)]))
    by (vm_compute; reflexivity).
  split; [exact H|].
  unfold factory in H.
  destruct (shutdown_after_new_metrics_exporter quiet_close quiet_close
              quiet_close _ _ _ _ _ _ _ _ _ _ _ _ 0 H)
    as (built & thread & Hinit & Hget & Hev).
  injection Hinit as <-. simpl in Hget. subst thread. exact Hev.
Defined.
